(** * IslandWindow: the XAML-island host window of Windows Terminal

    A shallow embedding of [src/cascadia/WindowsTerminal/IslandWindow.cpp].
    The object's fields, the part of the window manager the methods read
    and write, and the log of the calls that leave the object are threaded
    through a small state monad, so every method reads like its C++ body. *)

From Stdlib Require Import ZArith List Bool Lia.
Import ListNotations.
Open Scope Z_scope.

(** ** The Win32 vocabulary the file uses *)

Module Win32.

(** Handles and pointers are machine words; [nullptr] is the zero word. *)
Definition HWND := Z.
Definition HMONITOR := Z.
Definition HRESULT := Z.
Definition LRESULT := Z.
Definition nullptr : Z := 0.

(** [static_cast<bool>(p)] and [p != nullptr] on a pointer. *)
Definition nonnull (p : Z) : bool := negb (p =? nullptr).

(** LONG and int are 32-bit two's complement; arithmetic on them wraps. *)
Definition wrap32 (z : Z) : Z := (z + 2 ^ 31) mod 2 ^ 32 - 2 ^ 31.
Definition int32 (z : Z) : Prop := - 2 ^ 31 <= z < 2 ^ 31.

Record RECT := mkRECT { left : Z; top : Z; right : Z; bottom : Z }.

Definition RECT_in_range (r : RECT) : Prop :=
  int32 (left r) /\ int32 (top r) /\ int32 (right r) /\ int32 (bottom r).

Record CREATESTRUCTW := mkCREATESTRUCTW { cs_x : Z; cs_y : Z; cs_cx : Z; cs_cy : Z }.

(** Window messages. *)
Definition WM_CREATE : Z := 0x0001.
Definition WM_SETFOCUS : Z := 0x0007.
Definition WM_CLOSE : Z := 0x0010.
Definition WM_NCLBUTTONDOWN : Z := 0x00A1.
Definition WM_NCLBUTTONUP : Z := 0x00A2.
Definition WM_NCRBUTTONDOWN : Z := 0x00A4.
Definition WM_NCRBUTTONUP : Z := 0x00A5.
Definition WM_NCMBUTTONDOWN : Z := 0x00A7.
Definition WM_NCMBUTTONUP : Z := 0x00A8.
Definition WM_NCXBUTTONDOWN : Z := 0x00AB.
Definition WM_NCXBUTTONUP : Z := 0x00AC.
Definition WM_MENUCHAR : Z := 0x0120.

(** ShowWindow commands, the WM_MENUCHAR answer, styles, indices, flags. *)
Definition SW_MAXIMIZE : Z := 3.
Definition SW_SHOW : Z := 5.
Definition MNC_CLOSE : Z := 1.
Definition WS_OVERLAPPEDWINDOW : Z := 0x00CF0000.
Definition WS_POPUP : Z := 0x80000000.
Definition WS_EX_WINDOWEDGE : Z := 0x00000100.
Definition GWL_STYLE : Z := -16.
Definition GWL_EXSTYLE : Z := -20.
Definition HWND_TOP : Z := 0.
Definition SWP_FRAMECHANGED : Z := 0x0020.
Definition SWP_SHOWWINDOW : Z := 0x0040.

(** [LOWORD], [HIWORD], [MAKELONG] and [MAKELRESULT] of <minwindef.h>. *)
Definition LOWORD (l : Z) : Z := Z.land l 0xffff.
Definition HIWORD (l : Z) : Z := Z.land (Z.shiftr l 16) 0xffff.
Definition MAKELONG (a b : Z) : Z :=
  Z.lor (Z.land a 0xffff) (Z.shiftl (Z.land b 0xffff) 16).
Definition MAKELRESULT (l h : Z) : LRESULT := MAKELONG l h.

(** The flag helpers of wil, applied to a LONG variable: [WI_SetFlag] and
    [WI_SetAllFlags] are [|=], [WI_ClearFlag] and [WI_ClearAllFlags] are
    [&= ~]; the result goes back into the variable, so it is a LONG again
    (setting 0x80000000 in a non-negative LONG makes it negative). *)
Definition WI_SetFlag (v flag : Z) : Z := wrap32 (Z.lor v flag).
Definition WI_SetAllFlags (v flags : Z) : Z := wrap32 (Z.lor v flags).
Definition WI_ClearFlag (v flag : Z) : Z := wrap32 (Z.ldiff v flag).
Definition WI_ClearAllFlags (v flags : Z) : Z := wrap32 (Z.ldiff v flags).

(** The conversion of a LONG to DWORD. *)
Definition DWORD_of_LONG (l : Z) : Z := l mod 2 ^ 32.

End Win32.
Import Win32.

(** [RECT_WIDTH] and [RECT_HEIGHT], computed on int. *)
Definition RECT_WIDTH (pRect : RECT) : Z := wrap32 (right pRect - left pRect).
Definition RECT_HEIGHT (pRect : RECT) : Z := wrap32 (bottom pRect - top pRect).

(** [winrt::TerminalApp::LaunchMode]. *)
Inductive LaunchMode := DefaultMode | MaximizedMode.

Definition LaunchMode_eqb (a b : LaunchMode) : bool :=
  match a, b with
  | DefaultMode, DefaultMode | MaximizedMode, MaximizedMode => true
  | _, _ => false
  end.

(** The two events of the class. *)
Inductive Event := DragRegionClicked | WindowCloseButtonClicked.

(** Everything a method does outside the object, in program order. *)
Inductive Call :=
| ShowWindow (hWnd : HWND) (nCmdShow : Z)
| UpdateWindow (hWnd : HWND)
| SetFocus (hWnd : HWND)
| SetWindowLongW (hWnd : HWND) (nIndex dwNewLong : Z)
| SetWindowPos (hWnd hWndInsertAfter : HWND) (X Y cx cy uFlags : Z)
| PostQuitMessage (nExitCode : Z)
| AttachToWindow (hWnd : HWND)
| CreateCallback (hWnd : HWND) (rc : RECT) (launchMode : LaunchMode)
| Invoke (e : Event) (delegate : Z)
| LOG_HR (hr : HRESULT).

(** ** The object, the desktop around it, and the monad of its methods *)

Section Host.

(** [float], the coordinate type of [winrt::Windows::Foundation::Size]. *)
Variable float : Type.

Record Size := mkSize { Width : float; Height : float }.

(** The root [Grid]: the two properties [OnSize] writes; [None] is the
    property's unset (auto) value. *)
Record Grid := mkGrid { Grid_Width : option float; Grid_Height : option float }.

(** The create callback takes the launch mode by reference: the result is
    the value it leaves there. *)
Definition CreateCallbackFn := HWND -> RECT -> LaunchMode -> LaunchMode.

(** The members of the class. [_source] is whether the XAML source has been
    created: its content is the root grid object itself, which is kept
    once, in [_rootGrid]. Each event holds its subscribed delegates. *)
Record IslandWindow := mkIslandWindow {
  _window : HWND;
  _interopWindowHandle : HWND;
  _rootGrid : option Grid;
  _source : bool;
  _pfnCreateCallback : option CreateCallbackFn;
  _pUiaProvider : Z;
  _fullscreen : bool;
  _rcNonFullscreenWindowSize : RECT;
  _rcFullscreenWindowSize : RECT;
  _DragRegionClickedHandlers : list Z;
  _windowCloseButtonClickedHandler : list Z
}.

(** What the window manager holds and the methods read back: the window
    longs and rectangle of each window, the monitors, the island the XAML
    host hands out, and the memory behind a WM_CREATE [lParam]. *)
Record Desktop := mkDesktop {
  windowLong : HWND -> Z -> Z;
  windowRect : HWND -> RECT;
  monitorNearest : RECT -> HMONITOR;
  monitorRect : HMONITOR -> RECT;
  monitorInfoAvailable : HMONITOR -> bool;
  islandAttach : HWND -> HRESULT;
  islandHandle : HWND;
  createStructAt : Z -> CREATESTRUCTW
}.

Record Host := mkHost {
  this : IslandWindow;
  desktop : Desktop;
  calls : list Call
}.

Definition M (A : Type) : Type := Host -> A * Host.

Definition ret {A} (a : A) : M A := fun h => (a, h).
Definition bind {A B} (c : M A) (k : A -> M B) : M B :=
  fun h => let (a, h') := c h in k a h'.

Notation "x <- c ;; k" := (bind c (fun x => k))
  (at level 61, c at next level, right associativity).
Notation "c ;; k" := (bind c (fun _ => k))
  (at level 61, right associativity).

Definition get_host : M Host := fun h => (h, h).
Definition get_this : M IslandWindow := fun h => (this h, h).
Definition set_this (f : IslandWindow -> IslandWindow) : M unit :=
  fun h => (tt, mkHost (f (this h)) (desktop h) (calls h)).
Definition get_desktop : M Desktop := fun h => (desktop h, h).
Definition set_desktop (f : Desktop -> Desktop) : M unit :=
  fun h => (tt, mkHost (this h) (f (desktop h)) (calls h)).
Definition emit (c : Call) : M unit :=
  fun h => (tt, mkHost (this h) (desktop h) (calls h ++ [c])).
Definition when (b : bool) (c : M unit) : M unit := if b then c else ret tt.

Definition exec {A} (c : M A) (h : Host) : Host := snd (c h).

(** *** Member writes *)

Definition with_interopWindowHandle (v : HWND) (w : IslandWindow) :=
  mkIslandWindow (_window w) v (_rootGrid w) (_source w) (_pfnCreateCallback w)
    (_pUiaProvider w) (_fullscreen w) (_rcNonFullscreenWindowSize w)
    (_rcFullscreenWindowSize w) (_DragRegionClickedHandlers w)
    (_windowCloseButtonClickedHandler w).
Definition with_rootGrid (v : option Grid) (w : IslandWindow) :=
  mkIslandWindow (_window w) (_interopWindowHandle w) v (_source w)
    (_pfnCreateCallback w) (_pUiaProvider w) (_fullscreen w)
    (_rcNonFullscreenWindowSize w) (_rcFullscreenWindowSize w)
    (_DragRegionClickedHandlers w) (_windowCloseButtonClickedHandler w).
Definition with_source (v : bool) (w : IslandWindow) :=
  mkIslandWindow (_window w) (_interopWindowHandle w) (_rootGrid w) v
    (_pfnCreateCallback w) (_pUiaProvider w) (_fullscreen w)
    (_rcNonFullscreenWindowSize w) (_rcFullscreenWindowSize w)
    (_DragRegionClickedHandlers w) (_windowCloseButtonClickedHandler w).
Definition with_pfnCreateCallback (v : option CreateCallbackFn) (w : IslandWindow) :=
  mkIslandWindow (_window w) (_interopWindowHandle w) (_rootGrid w) (_source w)
    v (_pUiaProvider w) (_fullscreen w) (_rcNonFullscreenWindowSize w)
    (_rcFullscreenWindowSize w) (_DragRegionClickedHandlers w)
    (_windowCloseButtonClickedHandler w).
Definition with_pUiaProvider (v : Z) (w : IslandWindow) :=
  mkIslandWindow (_window w) (_interopWindowHandle w) (_rootGrid w) (_source w)
    (_pfnCreateCallback w) v (_fullscreen w) (_rcNonFullscreenWindowSize w)
    (_rcFullscreenWindowSize w) (_DragRegionClickedHandlers w)
    (_windowCloseButtonClickedHandler w).
Definition with_fullscreen (v : bool) (w : IslandWindow) :=
  mkIslandWindow (_window w) (_interopWindowHandle w) (_rootGrid w) (_source w)
    (_pfnCreateCallback w) (_pUiaProvider w) v (_rcNonFullscreenWindowSize w)
    (_rcFullscreenWindowSize w) (_DragRegionClickedHandlers w)
    (_windowCloseButtonClickedHandler w).
Definition with_rcNonFullscreenWindowSize (v : RECT) (w : IslandWindow) :=
  mkIslandWindow (_window w) (_interopWindowHandle w) (_rootGrid w) (_source w)
    (_pfnCreateCallback w) (_pUiaProvider w) (_fullscreen w) v
    (_rcFullscreenWindowSize w) (_DragRegionClickedHandlers w)
    (_windowCloseButtonClickedHandler w).
Definition with_rcFullscreenWindowSize (v : RECT) (w : IslandWindow) :=
  mkIslandWindow (_window w) (_interopWindowHandle w) (_rootGrid w) (_source w)
    (_pfnCreateCallback w) (_pUiaProvider w) (_fullscreen w)
    (_rcNonFullscreenWindowSize w) v (_DragRegionClickedHandlers w)
    (_windowCloseButtonClickedHandler w).

(** *** The window manager's side of the calls *)

Definition upd {A} (f : Z -> A) (k : Z) (v : A) : Z -> A :=
  fun k' => if k' =? k then v else f k'.

(** [GetWindowLongW] returns a LONG and [SetWindowLongW] takes one: the
    value is a 32-bit two's complement number on both sides. *)
Definition os_GetWindowLongW (hWnd : HWND) (nIndex : Z) : M Z :=
  d <- get_desktop ;; ret (wrap32 (windowLong d hWnd nIndex)).

Definition os_SetWindowLongW (hWnd : HWND) (nIndex dwNewLong : Z) : M unit :=
  emit (SetWindowLongW hWnd nIndex (wrap32 dwNewLong)) ;;
  set_desktop (fun d =>
    mkDesktop (upd (windowLong d) hWnd
                 (upd (windowLong d hWnd) nIndex (wrap32 dwNewLong)))
      (windowRect d) (monitorNearest d) (monitorRect d) (monitorInfoAvailable d)
      (islandAttach d) (islandHandle d) (createStructAt d)).

Definition os_GetWindowRect (hWnd : HWND) : M RECT :=
  d <- get_desktop ;; ret (windowRect d hWnd).

(** The rectangle a placement at ([X], [Y]) of size [cx] by [cy] covers. *)
Definition placed (X Y cx cy : Z) : RECT :=
  mkRECT X Y (wrap32 (X + cx)) (wrap32 (Y + cy)).

Definition os_SetWindowPos (hWnd hWndInsertAfter : HWND) (X Y cx cy uFlags : Z) : M unit :=
  emit (SetWindowPos hWnd hWndInsertAfter X Y cx cy uFlags) ;;
  set_desktop (fun d =>
    mkDesktop (windowLong d) (upd (windowRect d) hWnd (placed X Y cx cy))
      (monitorNearest d) (monitorRect d) (monitorInfoAvailable d)
      (islandAttach d) (islandHandle d) (createStructAt d)).

(** [MonitorFromWindow] with MONITOR_DEFAULTTONEAREST. *)
Definition os_MonitorFromWindow (hWnd : HWND) : M HMONITOR :=
  d <- get_desktop ;; ret (monitorNearest d (windowRect d hWnd)).

(** [GetMonitorInfo]: [Some rcMonitor] when it returns TRUE. *)
Definition os_GetMonitorInfo (hMonitor : HMONITOR) : M (option RECT) :=
  d <- get_desktop ;;
  ret (if monitorInfoAvailable d hMonitor then Some (monitorRect d hMonitor) else None).

(** ** What lives in headers and siblings of this file *)

(** [BaseWindow::GetLogicalSize]: the client size divided by the DPI scale. *)
Variable GetLogicalSize : Host -> Size.

(** The virtual [_ShouldUpdateStylesOnFullscreen() const] of the class. *)
Variable _ShouldUpdateStylesOnFullscreen : IslandWindow -> bool.

(** [base_type::MessageHandler], the handler of [BaseWindow]. *)
Variable base_MessageHandler : Z -> Z -> Z -> M LRESULT.

(** [WindowUiaProvider::Create(this)]: the exception it throws, as the
    HRESULT [wil::ResultFromCaughtException] gives it, or the provider. *)
Variable WindowUiaProvider_Create : IslandWindow -> HRESULT + Z.

(** Modelled from the spec: [BaseWindow::GetWindowHandle] is declared in
    BaseWindow.h, which is not among the sources; it gives the "native
    window identity" the object owns. *)
Definition GetWindowHandle : M HWND :=
  w <- get_this ;; ret (_window w).

(** Modelled from the spec: [BaseWindow::GetWindowRect], of the same absent
    header, gives the "current window rectangle" of that window. *)
Definition GetWindowRect : M RECT :=
  w <- get_this ;; os_GetWindowRect (_window w).

(** Modelled from the spec: the macro [DEFINE_EVENT] (cppwinrt_utils.h, not
    among the sources) declares each event as a list of subscribers;
    raising it is a "zero-argument notification, multiple subscribers,
    synchronous delivery": every delegate is invoked, in subscription order. *)
Fixpoint notify (e : Event) (delegates : list Z) : M unit :=
  match delegates with
  | [] => ret tt
  | d :: rest => emit (Invoke e d) ;; notify e rest
  end.

Definition raise_DragRegionClicked : M unit :=
  w <- get_this ;; notify DragRegionClicked (_DragRegionClickedHandlers w).

Definition raise_WindowCloseButtonClicked : M unit :=
  w <- get_this ;; notify WindowCloseButtonClicked (_windowCloseButtonClickedHandler w).

Definition subscribe_DragRegionClicked (delegate : Z) (w : IslandWindow) :=
  mkIslandWindow (_window w) (_interopWindowHandle w) (_rootGrid w) (_source w)
    (_pfnCreateCallback w) (_pUiaProvider w) (_fullscreen w)
    (_rcNonFullscreenWindowSize w) (_rcFullscreenWindowSize w)
    (_DragRegionClickedHandlers w ++ [delegate])
    (_windowCloseButtonClickedHandler w).

Definition subscribe_WindowCloseButtonClicked (delegate : Z) (w : IslandWindow) :=
  mkIslandWindow (_window w) (_interopWindowHandle w) (_rootGrid w) (_source w)
    (_pfnCreateCallback w) (_pUiaProvider w) (_fullscreen w)
    (_rcNonFullscreenWindowSize w) (_rcFullscreenWindowSize w)
    (_DragRegionClickedHandlers w)
    (_windowCloseButtonClickedHandler w ++ [delegate]).

(** ** The methods of IslandWindow.cpp *)

(** The constructor. Its initialiser list sets [_interopWindowHandle],
    [_rootGrid], [_source] and [_pfnCreateCallback] to null, and the two
    events are constructed with no subscriber. The window handle is the
    base class's; [_pUiaProvider], [_fullscreen] and the two cached
    rectangles are not in the list: what they start from is decided in
    IslandWindow.h, which is not among the sources, so their first values
    are arguments. *)
Definition IslandWindow_ctor (window : HWND) (pUiaProvider : Z)
    (fullscreen : bool)
    (rcNonFullscreenWindowSize rcFullscreenWindowSize : RECT) : IslandWindow :=
  mkIslandWindow window nullptr None false None pUiaProvider fullscreen
    rcNonFullscreenWindowSize rcFullscreenWindowSize [] [].

Definition Close : M unit :=
  emit (PostQuitMessage 0).

Definition SetCreateCallback (pfn : option CreateCallbackFn) : M unit :=
  set_this (with_pfnCreateCallback pfn).

Definition _HandleCreateWindow (wParam lParam : Z) : M unit :=
  d <- get_desktop ;;
  let pcs := createStructAt d lParam in
  let rc_left := cs_x pcs in
  let rc_top := cs_y pcs in
  let rc := mkRECT rc_left rc_top
              (wrap32 (rc_left + cs_cx pcs)) (wrap32 (rc_top + cs_cy pcs)) in
  w <- get_this ;;
  launchMode <-
    match _pfnCreateCallback w with
    | Some pfn =>
        emit (CreateCallback (_window w) rc DefaultMode) ;;
        ret (pfn (_window w) rc DefaultMode)
    | None => ret DefaultMode
    end ;;
  let nCmdShow :=
    if LaunchMode_eqb launchMode MaximizedMode then SW_MAXIMIZE else SW_SHOW in
  emit (ShowWindow (_window w) nCmdShow) ;;
  emit (UpdateWindow (_window w)).

(** [check_hresult] throws on a failure code: [inl hr] is that exception. *)
Definition Initialize : M (HRESULT + unit) :=
  set_this (with_source true) ;;
  w <- get_this ;;
  d <- get_desktop ;;
  emit (AttachToWindow (_window w)) ;;
  let hr := islandAttach d (_window w) in
  if hr <? 0 then ret (inl hr)
  else
    set_this (with_interopWindowHandle (islandHandle d)) ;;
    set_this (with_rootGrid (Some (mkGrid None None))) ;;
    ret (inr tt).

Definition OnSize (width height : Z) : M unit :=
  w <- get_this ;;
  os_SetWindowPos (_interopWindowHandle w) 0 0 0 (wrap32 width) (wrap32 height)
    SWP_SHOWWINDOW ;;
  match _rootGrid w with
  | Some _ =>
      h <- get_host ;;
      let size := GetLogicalSize h in
      set_this (with_rootGrid (Some (mkGrid (Some (Width size)) (Some (Height size)))))
  | None => ret tt
  end.

(** The body of the non-client button cases: raise the event, then [break]
    to the delegation after the switch. *)
Definition nonclient_button_case (message wparam lparam : Z) : M LRESULT :=
  raise_DragRegionClicked ;;
  base_MessageHandler message wparam lparam.

Definition is_nonclient_button (message : Z) : bool :=
  (message =? WM_NCLBUTTONDOWN) || (message =? WM_NCLBUTTONUP) ||
  (message =? WM_NCMBUTTONDOWN) || (message =? WM_NCMBUTTONUP) ||
  (message =? WM_NCRBUTTONDOWN) || (message =? WM_NCRBUTTONUP) ||
  (message =? WM_NCXBUTTONDOWN) || (message =? WM_NCXBUTTONUP).

Definition MessageHandler (message wparam lparam : Z) : M LRESULT :=
  if message =? WM_CREATE then
    _HandleCreateWindow wparam lparam ;;
    ret 0
  else if message =? WM_SETFOCUS then
    w <- get_this ;;
    if nonnull (_interopWindowHandle w) then
      emit (SetFocus (_interopWindowHandle w)) ;;
      ret 0
    else
      (* the case block ends without break or return: control runs on into
         the statements of the case labels that follow *)
      nonclient_button_case message wparam lparam
  else if is_nonclient_button message then
    nonclient_button_case message wparam lparam
  else if message =? WM_MENUCHAR then
    ret (MAKELRESULT 0 MNC_CLOSE)
  else if message =? WM_CLOSE then
    raise_WindowCloseButtonClicked ;;
    ret 0
  else
    base_MessageHandler message wparam lparam.

Definition _GetUiaProvider : M Z :=
  w <- get_this ;;
  when (nullptr =? _pUiaProvider w)
    (match WindowUiaProvider_Create w with
     | inr provider => set_this (with_pUiaProvider provider)
     | inl hr =>
         emit (LOG_HR hr) ;;
         set_this (with_pUiaProvider nullptr)
     end) ;;
  w <- get_this ;;
  ret (_pUiaProvider w).

Definition OnResize (width height : Z) : M unit :=
  w <- get_this ;;
  when (nonnull (_interopWindowHandle w)) (OnSize width height).

Definition _BackupWindowSizes (fCurrentIsInFullscreen : bool) : M unit :=
  w <- get_this ;;
  when (_fullscreen w)
    (when (negb fCurrentIsInFullscreen)
       (rc <- GetWindowRect ;;
        set_this (with_rcNonFullscreenWindowSize rc)) ;;
     hWnd <- GetWindowHandle ;;
     hCurrentMonitor <- os_MonitorFromWindow hWnd ;;
     currMonitorInfo <- os_GetMonitorInfo hCurrentMonitor ;;
     match currMonitorInfo with
     | Some rcMonitor => set_this (with_rcFullscreenWindowSize rcMonitor)
     | None => ret tt
     end).

Definition _ApplyWindowSize : M unit :=
  w <- get_this ;;
  let rcNewSize :=
    if _fullscreen w then _rcFullscreenWindowSize w
    else _rcNonFullscreenWindowSize w in
  hWnd <- GetWindowHandle ;;
  os_SetWindowPos hWnd HWND_TOP (left rcNewSize) (top rcNewSize)
    (RECT_WIDTH rcNewSize) (RECT_HEIGHT rcNewSize) SWP_FRAMECHANGED.

Definition SetIsFullscreen (fFullscreenEnabled : bool) : M unit :=
  w0 <- get_this ;;
  let fOldIsInFullscreen := _fullscreen w0 in
  set_this (with_fullscreen fFullscreenEnabled) ;;
  w <- get_this ;;
  when (_ShouldUpdateStylesOnFullscreen w)
    (hWnd <- GetWindowHandle ;;
     dwWindowStyle <- os_GetWindowLongW hWnd GWL_STYLE ;;
     os_SetWindowLongW hWnd GWL_STYLE
       (if _fullscreen w
        then WI_SetFlag (WI_ClearAllFlags dwWindowStyle WS_OVERLAPPEDWINDOW) WS_POPUP
        else WI_SetAllFlags (WI_ClearFlag dwWindowStyle WS_POPUP) WS_OVERLAPPEDWINDOW) ;;
     dwExWindowStyle <- os_GetWindowLongW hWnd GWL_EXSTYLE ;;
     os_SetWindowLongW hWnd GWL_EXSTYLE
       (if _fullscreen w
        then WI_ClearFlag dwExWindowStyle WS_EX_WINDOWEDGE
        else WI_SetFlag dwExWindowStyle WS_EX_WINDOWEDGE)) ;;
  _BackupWindowSizes fOldIsInFullscreen ;;
  _ApplyWindowSize.

Definition ToggleFullscreen : M unit :=
  w <- get_this ;;
  SetIsFullscreen (negb (_fullscreen w)).

(** ** Vocabulary of the properties *)

(** Does a call end the process? *)
Definition terminates (c : Call) : bool :=
  match c with PostQuitMessage _ => true | _ => false end.

Definition is_CreateCallback (c : Call) : bool :=
  match c with CreateCallback _ _ _ => true | _ => false end.

Definition is_SetWindowLongW (c : Call) : bool :=
  match c with SetWindowLongW _ _ _ => true | _ => false end.

Definition count (p : Call -> bool) (l : list Call) : nat :=
  length (filter p l).

Ltac unfold_monad :=
  cbv [bind ret get_host get_this set_this get_desktop set_desktop emit
       when exec].

(** The bounds [_HandleCreateWindow] reads out of the CREATESTRUCTW. *)
Definition proposed_bounds (pcs : CREATESTRUCTW) : RECT :=
  mkRECT (cs_x pcs) (cs_y pcs)
    (wrap32 (cs_x pcs + cs_cx pcs)) (wrap32 (cs_y pcs + cs_cy pcs)).

Definition nCmdShow_of (launchMode : LaunchMode) : Z :=
  match launchMode with
  | MaximizedMode => SW_MAXIMIZE
  | DefaultMode => SW_SHOW
  end.

(** The calls that switch fullscreen, and a sequence of them. *)
Inductive FullscreenCall :=
| Call_SetIsFullscreen (fFullscreenEnabled : bool)
| Call_ToggleFullscreen.

Definition perform (c : FullscreenCall) : M unit :=
  match c with
  | Call_SetIsFullscreen fFullscreenEnabled => SetIsFullscreen fFullscreenEnabled
  | Call_ToggleFullscreen => ToggleFullscreen
  end.

Fixpoint perform_all (cs : list FullscreenCall) : M unit :=
  match cs with
  | [] => ret tt
  | c :: rest => perform c ;; perform_all rest
  end.

(** The monitor nearest the window, its rectangle, and whether
    [GetMonitorInfo] answers for it. *)
Definition monitor_under_window (h : Host) : HMONITOR :=
  monitorNearest (desktop h) (windowRect (desktop h) (_window (this h))).

Definition monitor_rect_under_window (h : Host) : RECT :=
  monitorRect (desktop h) (monitor_under_window h).

Definition monitor_info_succeeds (h : Host) : bool :=
  monitorInfoAvailable (desktop h) (monitor_under_window h).

Ltac unfold_fullscreen :=
  cbv [SetIsFullscreen ToggleFullscreen _BackupWindowSizes _ApplyWindowSize
       GetWindowRect GetWindowHandle os_GetWindowLongW os_SetWindowLongW
       os_GetWindowRect os_SetWindowPos os_MonitorFromWindow os_GetMonitorInfo
       monitor_info_succeeds monitor_rect_under_window monitor_under_window];
  unfold_monad.

(** The object a [SetIsFullscreen] call leaves behind. *)
Definition after_SetIsFullscreen (fFullscreenEnabled : bool) (h : Host) : IslandWindow :=
  let w := with_fullscreen fFullscreenEnabled (this h) in
  if fFullscreenEnabled then
    let w1 :=
      if _fullscreen (this h) then w
      else with_rcNonFullscreenWindowSize
             (windowRect (desktop h) (_window (this h))) w in
    if monitor_info_succeeds h
    then with_rcFullscreenWindowSize (monitor_rect_under_window h) w1
    else w1
  else w.

(** The rectangle [_ApplyWindowSize] places the window at. *)
Definition applied_rect (w : IslandWindow) : RECT :=
  if _fullscreen w then _rcFullscreenWindowSize w
  else _rcNonFullscreenWindowSize w.

Definition placement (hWnd : HWND) (r : RECT) : Call :=
  SetWindowPos hWnd HWND_TOP (left r) (top r) (RECT_WIDTH r) (RECT_HEIGHT r)
    SWP_FRAMECHANGED.

(** The window carries the styles fullscreen gives it: no bit of
    WS_OVERLAPPEDWINDOW, WS_POPUP set, WS_EX_WINDOWEDGE clear. *)
Definition fullscreen_styled (h : Host) : Prop :=
  let hWnd := _window (this h) in
  Z.land (windowLong (desktop h) hWnd GWL_STYLE) WS_OVERLAPPEDWINDOW = 0
  /\ Z.land (windowLong (desktop h) hWnd GWL_STYLE) WS_POPUP = WS_POPUP
  /\ Z.land (windowLong (desktop h) hWnd GWL_EXSTYLE) WS_EX_WINDOWEDGE = 0.

(** *** A concrete desktop to run the methods on *)

(** One 1920 by 1080 monitor; the window 0x1111 is overlapped, with a
    window edge, at (100, 100)-(900, 700); [monitors_ok] says whether
    [GetMonitorInfo] answers. *)
Definition sample_desktop (monitors_ok : bool) : Desktop :=
  mkDesktop
    (fun _ nIndex =>
       if nIndex =? GWL_STYLE then WS_OVERLAPPEDWINDOW
       else if nIndex =? GWL_EXSTYLE then WS_EX_WINDOWEDGE
       else 0)
    (fun _ => mkRECT 100 100 900 700)
    (fun _ => 1)
    (fun _ => mkRECT 0 0 1920 1080)
    (fun _ => monitors_ok)
    (fun _ => 0)
    0x2222
    (fun _ => mkCREATESTRUCTW 10 20 800 600).

(** A window constructed for the handle 0x1111 and not initialised, taken
    with no provider, windowed, and both cached rectangles empty. *)
Definition sample_window : IslandWindow :=
  IslandWindow_ctor 0x1111 nullptr false (mkRECT 0 0 0 0) (mkRECT 0 0 0 0).

Definition sample_host (monitors_ok : bool) : Host :=
  mkHost sample_window (sample_desktop monitors_ok) [].

(** A base handler that only answers 0. *)
Definition answer_zero : Z -> Z -> Z -> M LRESULT :=
  fun _ _ _ => ret 0.

(** ** The remaining methods and what their properties speak of *)

(** WS_DLGFRAME of <winuser.h>, and SIZE of <windef.h>. *)
Definition WS_DLGFRAME : Z := 0x00400000.

Record SIZE := mkSIZE { size_cx : Z; size_cy : Z }.

(** [BaseWindow::GetPhysicalSize]: the client size in pixels. *)
Variable GetPhysicalSize : Host -> SIZE.

(** [AdjustWindowRectExForDpi] of the window manager, as the rectangle it
    leaves in its first argument. *)
Variable AdjustWindowRectExForDpi : RECT -> Z -> bool -> Z -> Z -> RECT.

(** [GetWindowStyle] and [GetWindowExStyle] of <windowsx.h> read the two
    window longs as DWORDs. *)
Definition GetFrameBorderMargins (currentDpi : Z) : M RECT :=
  w <- get_this ;;
  windowLong_style <- os_GetWindowLongW (_window w) GWL_STYLE ;;
  let windowStyle := DWORD_of_LONG windowLong_style in
  let targetStyle := Z.ldiff windowStyle WS_DLGFRAME in
  let frame := mkRECT 0 0 0 0 in
  windowLong_exStyle <- os_GetWindowLongW (_window w) GWL_EXSTYLE ;;
  let exStyle := DWORD_of_LONG windowLong_exStyle in
  ret (AdjustWindowRectExForDpi frame targetStyle false exStyle currentDpi).

Definition OnMinimize : M unit := ret tt.

Definition OnRestore : M unit := ret tt.

Definition OnAppInitialized : M unit :=
  h <- get_host ;;
  let size := GetPhysicalSize h in
  OnSize (size_cx size) (size_cy size).

(** A computation run [n] times in a row. *)
Fixpoint times {A} (n : nat) (c : M A) : M unit :=
  match n with
  | O => ret tt
  | S n' => c ;; times n' c
  end.

(** The messages [MessageHandler] has a case for. *)
Definition nonclient_button_messages : list Z :=
  [WM_NCLBUTTONDOWN; WM_NCLBUTTONUP; WM_NCMBUTTONDOWN; WM_NCMBUTTONUP;
   WM_NCRBUTTONDOWN; WM_NCRBUTTONUP; WM_NCXBUTTONDOWN; WM_NCXBUTTONUP].

Definition handled_messages : list Z :=
  WM_CREATE :: WM_SETFOCUS :: WM_MENUCHAR :: WM_CLOSE :: nonclient_button_messages.

(** The two-state machine {windowed, fullscreen} the calls drive. *)
Definition next_fullscreen (fullscreen : bool) (c : FullscreenCall) : bool :=
  match c with
  | Call_SetIsFullscreen fFullscreenEnabled => fFullscreenEnabled
  | Call_ToggleFullscreen => negb fullscreen
  end.

(** A call that restyles or places the window [hWnd], and nothing else. *)
Definition restyles_or_places (hWnd : HWND) (c : Call) : bool :=
  match c with
  | SetWindowLongW h _ _ => h =? hWnd
  | SetWindowPos h _ _ _ _ _ _ => h =? hWnd
  | _ => false
  end.

(** Two objects that differ at most in the fullscreen flag and the two
    cached rectangles. *)
Definition same_outside_fullscreen (w w' : IslandWindow) : Prop :=
  _window w' = _window w
  /\ _interopWindowHandle w' = _interopWindowHandle w
  /\ _rootGrid w' = _rootGrid w
  /\ _source w' = _source w
  /\ _pfnCreateCallback w' = _pfnCreateCallback w
  /\ _pUiaProvider w' = _pUiaProvider w
  /\ _DragRegionClickedHandlers w' = _DragRegionClickedHandlers w
  /\ _windowCloseButtonClickedHandler w' = _windowCloseButtonClickedHandler w.

(** The window carries the styles of a windowed frame: every bit of
    WS_OVERLAPPEDWINDOW, no WS_POPUP, WS_EX_WINDOWEDGE set. *)
Definition windowed_styled (h : Host) : Prop :=
  let hWnd := _window (this h) in
  Z.land (windowLong (desktop h) hWnd GWL_STYLE) WS_OVERLAPPEDWINDOW =
    WS_OVERLAPPEDWINDOW
  /\ Z.land (windowLong (desktop h) hWnd GWL_STYLE) WS_POPUP = 0
  /\ Z.land (windowLong (desktop h) hWnd GWL_EXSTYLE) WS_EX_WINDOWEDGE =
     WS_EX_WINDOWEDGE.

(** The window longs after the two [SetWindowLongW] calls of
    [SetIsFullscreen]. *)
Definition restyled (fullscreen : bool) (longs : HWND -> Z -> Z) (hWnd : HWND)
  : HWND -> Z -> Z :=
  let style := wrap32 (longs hWnd GWL_STYLE) in
  let exStyle := wrap32 (longs hWnd GWL_EXSTYLE) in
  upd longs hWnd
    (upd (upd (longs hWnd) GWL_STYLE
            (wrap32
               (if fullscreen
                then WI_SetFlag (WI_ClearAllFlags style WS_OVERLAPPEDWINDOW)
                       WS_POPUP
                else WI_SetAllFlags (WI_ClearFlag style WS_POPUP)
                       WS_OVERLAPPEDWINDOW)))
         GWL_EXSTYLE
         (wrap32
            (if fullscreen
             then WI_ClearFlag exStyle WS_EX_WINDOWEDGE
             else WI_SetFlag exStyle WS_EX_WINDOWEDGE))).

(** The two style longs of the window are LONG values, as everything
    [GetWindowLongW] returns and [SetWindowLongW] stores is. *)
Definition window_longs_are_LONG (h : Host) : Prop :=
  int32 (windowLong (desktop h) (_window (this h)) GWL_STYLE)
  /\ int32 (windowLong (desktop h) (_window (this h)) GWL_EXSTYLE).

(** The sample desktop with a XAML host that refuses the attachment
    (E_FAIL). *)
Definition sample_desktop_no_island : Desktop :=
  mkDesktop
    (windowLong (sample_desktop true))
    (windowRect (sample_desktop true))
    (monitorNearest (sample_desktop true))
    (monitorRect (sample_desktop true))
    (monitorInfoAvailable (sample_desktop true))
    (fun _ => -2147467259)
    nullptr
    (createStructAt (sample_desktop true)).

(** ** Properties *)

(** Only [Initialize] gives the object an interop window: the constructor
    leaves the handle null. *)
Lemma ctor_interopWindowHandle (window : HWND) (pUiaProvider : Z)
    (fullscreen : bool) (rcNonFullscreen rcFullscreen : RECT) :
  _interopWindowHandle
    (IslandWindow_ctor window pUiaProvider fullscreen rcNonFullscreen
       rcFullscreen) = nullptr.
Proof. reflexivity. Qed.

Lemma Initialize_interopWindowHandle (h : Host) :
  0 <= islandAttach (desktop h) (_window (this h)) ->
  _interopWindowHandle (this (exec Initialize h)) = islandHandle (desktop h).
Proof.
  intro Hok. unfold Initialize. unfold_monad. simpl.
  destruct (Z.ltb_spec (islandAttach (desktop h) (_window (this h))) 0);
    [lia | reflexivity].
Qed.

Lemma notify_log (e : Event) (delegates : list Z) (h : Host) :
  notify e delegates h =
  (tt, mkHost (this h) (desktop h) (calls h ++ map (Invoke e) delegates)).
Proof.
  revert h; induction delegates as [|d rest IH]; intro h; simpl.
  - unfold ret. rewrite app_nil_r. now destruct h.
  - unfold_monad. rewrite IH. simpl. now rewrite <- app_assoc.
Qed.

Lemma existsb_terminates_Invoke (e : Event) (delegates : list Z) :
  existsb terminates (map (Invoke e) delegates) = false.
Proof. induction delegates; simpl; auto. Qed.

(** C8: WM_MENUCHAR is answered with MAKELRESULT(0, MNC_CLOSE), MNC_CLOSE in
    the high word and 0 in the low word, whatever the base handler would
    do; the object, the desktop and the call log stay as they were. *)
Theorem MessageHandler_WM_MENUCHAR (wparam lparam : Z) (h : Host) :
  MessageHandler WM_MENUCHAR wparam lparam h = (MAKELRESULT 0 MNC_CLOSE, h)
  /\ HIWORD (MAKELRESULT 0 MNC_CLOSE) = MNC_CLOSE
  /\ LOWORD (MAKELRESULT 0 MNC_CLOSE) = 0.
Proof. repeat split. Qed.

(** C5: WM_CLOSE invokes every subscriber of WindowCloseButtonClicked, in
    order, and returns 0 without reaching the base handler; it changes
    neither the object nor the desktop, and none of the calls it makes
    ends the process. *)
Theorem MessageHandler_WM_CLOSE (wparam lparam : Z) (h : Host) :
  let raised :=
    map (Invoke WindowCloseButtonClicked)
        (_windowCloseButtonClickedHandler (this h)) in
  MessageHandler WM_CLOSE wparam lparam h =
    (0, mkHost (this h) (desktop h) (calls h ++ raised))
  /\ existsb terminates raised = false.
Proof.
  split.
  - unfold MessageHandler, raise_WindowCloseButtonClicked. simpl.
    unfold_monad. now rewrite notify_log.
  - apply existsb_terminates_Invoke.
Qed.

(** C7: with no interop window yet, [OnResize] returns normally and leaves
    the whole host (object, desktop, call log) exactly as it was. *)
Theorem OnResize_before_Initialize (width height : Z) (h : Host) :
  _interopWindowHandle (this h) = nullptr ->
  OnResize width height h = (tt, h).
Proof.
  intro Hnull. unfold OnResize. unfold_monad. now rewrite Hnull.
Qed.

(** C6: with a create callback registered, WM_CREATE calls it exactly once,
    with the window handle and the rectangle (x, y, x + cx, y + cy) of the
    creation parameters, then shows the window with SW_MAXIMIZE when the
    callback left MaximizedMode and with SW_SHOW when it left DefaultMode,
    and returns 0. *)
Theorem MessageHandler_WM_CREATE_callback
    (wparam lparam : Z) (h : Host) (pfn : CreateCallbackFn) :
  _pfnCreateCallback (this h) = Some pfn ->
  let hWnd := _window (this h) in
  let rc := proposed_bounds (createStructAt (desktop h) lparam) in
  let issued :=
    [CreateCallback hWnd rc DefaultMode;
     ShowWindow hWnd (nCmdShow_of (pfn hWnd rc DefaultMode));
     UpdateWindow hWnd] in
  MessageHandler WM_CREATE wparam lparam h =
    (0, mkHost (this h) (desktop h) (calls h ++ issued))
  /\ count is_CreateCallback issued = 1%nat
  /\ (pfn hWnd rc DefaultMode = MaximizedMode ->
      In (ShowWindow hWnd SW_MAXIMIZE) issued)
  /\ (pfn hWnd rc DefaultMode = DefaultMode ->
      In (ShowWindow hWnd SW_SHOW) issued).
Proof.
  intros Hcb hWnd rc issued. repeat split.
  - unfold MessageHandler, _HandleCreateWindow. simpl. unfold_monad.
    rewrite Hcb. simpl. fold hWnd. unfold proposed_bounds in rc. fold rc.
    repeat rewrite <- app_assoc. simpl. subst issued.
    now destruct (pfn hWnd rc DefaultMode).
  - intro Hm. subst issued. rewrite Hm. simpl. auto.
  - intro Hm. subst issued. rewrite Hm. simpl. auto.
Qed.

(** C10: with no create callback registered, WM_CREATE still completes: the
    launch mode stays DefaultMode, the window is shown with SW_SHOW and
    updated, and the handler returns 0. *)
Theorem MessageHandler_WM_CREATE_no_callback (wparam lparam : Z) (h : Host) :
  _pfnCreateCallback (this h) = None ->
  MessageHandler WM_CREATE wparam lparam h =
    (0, mkHost (this h) (desktop h)
          (calls h ++ [ShowWindow (_window (this h)) SW_SHOW;
                       UpdateWindow (_window (this h))])).
Proof.
  intro Hcb. unfold MessageHandler, _HandleCreateWindow. simpl. unfold_monad.
  rewrite Hcb. simpl. now rewrite <- app_assoc.
Qed.

Lemma with_pUiaProvider_same (w : IslandWindow) :
  with_pUiaProvider (_pUiaProvider w) w = w.
Proof. now destruct w. Qed.

(** C9: when no provider is stored and [WindowUiaProvider::Create] throws,
    the exception is logged, the stored provider is null and null is
    returned, the call itself returning normally; when a provider is
    stored, it is returned as it is, [Create] is not consulted and nothing
    changes. *)
Theorem GetUiaProvider_failure_and_reuse (h : Host) :
  (forall hr : HRESULT,
      _pUiaProvider (this h) = nullptr ->
      WindowUiaProvider_Create (this h) = inl hr ->
      _GetUiaProvider h =
        (nullptr, mkHost (this h) (desktop h) (calls h ++ [LOG_HR hr]))
      /\ _pUiaProvider (this (exec _GetUiaProvider h)) = nullptr)
  /\ (_pUiaProvider (this h) <> nullptr ->
      _GetUiaProvider h = (_pUiaProvider (this h), h)).
Proof.
  split.
  - intros hr Hnull Hthrow.
    assert (Hrun : _GetUiaProvider h =
              (nullptr, mkHost (this h) (desktop h) (calls h ++ [LOG_HR hr]))).
    { unfold _GetUiaProvider. unfold_monad. rewrite Hnull. simpl.
      rewrite Hthrow. simpl.
      replace (with_pUiaProvider nullptr (this h)) with (this h); [reflexivity|].
      rewrite <- Hnull. symmetry. apply with_pUiaProvider_same. }
    split; [exact Hrun|]. unfold exec. now rewrite Hrun.
  - intro Hstored. unfold _GetUiaProvider. unfold_monad.
    destruct (Z.eqb_spec nullptr (_pUiaProvider (this h))) as [E|E].
    + now elim Hstored.
    + reflexivity.
Qed.

(** WM_SETFOCUS with an interop window: focus goes to it and the message is
    eaten, the base handler is not reached. *)
Lemma MessageHandler_WM_SETFOCUS_island (wparam lparam : Z) (h : Host) :
  _interopWindowHandle (this h) <> nullptr ->
  MessageHandler WM_SETFOCUS wparam lparam h =
    (0, mkHost (this h) (desktop h)
          (calls h ++ [SetFocus (_interopWindowHandle (this h))])).
Proof.
  intro Hset. unfold MessageHandler. simpl. unfold_monad. unfold nonnull.
  destruct (Z.eqb_spec (_interopWindowHandle (this h)) nullptr) as [E|E].
  - now elim Hset.
  - reflexivity.
Qed.

(** C1, where the code departs from it: on WM_SETFOCUS with no interop
    window the handler does reach the base handler, but not with the host
    untouched: the case block is left without a break, control runs into
    the non-client button cases, and every DragRegionClicked subscriber is
    invoked first. *)
Theorem MessageHandler_WM_SETFOCUS_no_island (wparam lparam : Z) (h : Host) :
  _interopWindowHandle (this h) = nullptr ->
  MessageHandler WM_SETFOCUS wparam lparam h =
    base_MessageHandler WM_SETFOCUS wparam lparam
      (mkHost (this h) (desktop h)
         (calls h ++ map (Invoke DragRegionClicked)
                         (_DragRegionClickedHandlers (this h)))).
Proof.
  intro Hnull. unfold MessageHandler. simpl. unfold_monad. rewrite Hnull.
  simpl. unfold nonclient_button_case, raise_DragRegionClicked. unfold_monad.
  now rewrite notify_log.
Qed.

Lemma SetIsFullscreen_this (fFullscreenEnabled : bool) (h : Host) :
  this (exec (SetIsFullscreen fFullscreenEnabled) h) =
  after_SetIsFullscreen fFullscreenEnabled h.
Proof.
  unfold after_SetIsFullscreen. unfold_fullscreen. simpl.
  destruct (_ShouldUpdateStylesOnFullscreen _);
    destruct fFullscreenEnabled; simpl; try reflexivity;
    destruct (_fullscreen (this h)); simpl;
    destruct (monitorInfoAvailable _ _); reflexivity.
Qed.

Lemma ToggleFullscreen_eq (h : Host) :
  ToggleFullscreen h = SetIsFullscreen (negb (_fullscreen (this h))) h.
Proof. reflexivity. Qed.

Lemma perform_this (c : FullscreenCall) (h : Host) :
  this (exec (perform c) h) =
  after_SetIsFullscreen
    (match c with
     | Call_SetIsFullscreen b => b
     | Call_ToggleFullscreen => negb (_fullscreen (this h))
     end) h.
Proof.
  destruct c; simpl.
  - apply SetIsFullscreen_this.
  - unfold exec. rewrite ToggleFullscreen_eq. apply SetIsFullscreen_this.
Qed.

(** C2, amended: in every sequence of [SetIsFullscreen] / [ToggleFullscreen]
    calls, a call made while the window is in fullscreen (or that leaves it
    windowed) leaves the cached non-fullscreen rectangle alone, and a call
    made while it is not, and which enters fullscreen, stores the window
    rectangle there; a call that
    leaves the window in fullscreen stores, when [GetMonitorInfo] succeeds,
    the rectangle of the monitor nearest the window at that call in the
    cached fullscreen rectangle; when the query fails, or the call leaves
    fullscreen, the cached fullscreen rectangle keeps its value. *)
Theorem fullscreen_rectangles_backup
    (earlier : list FullscreenCall) (c : FullscreenCall) (h0 : Host) :
  let h := exec (perform_all earlier) h0 in
  let h' := exec (perform c) h in
  (_fullscreen (this h) = true \/ _fullscreen (this h') = false ->
   _rcNonFullscreenWindowSize (this h') = _rcNonFullscreenWindowSize (this h))
  /\ (_fullscreen (this h) = false -> _fullscreen (this h') = true ->
      _rcNonFullscreenWindowSize (this h') =
      windowRect (desktop h) (_window (this h)))
  /\ (_fullscreen (this h') = true -> monitor_info_succeeds h = true ->
      _rcFullscreenWindowSize (this h') = monitor_rect_under_window h)
  /\ (_fullscreen (this h') = false \/ monitor_info_succeeds h = false ->
      _rcFullscreenWindowSize (this h') = _rcFullscreenWindowSize (this h)).
Proof.
  intros h h'. subst h'. generalize h. clear h. intro h.
  rewrite perform_this. unfold after_SetIsFullscreen.
  set (b := match c with
            | Call_SetIsFullscreen b => b
            | Call_ToggleFullscreen => negb (_fullscreen (this h))
            end).
  destruct b; destruct (_fullscreen (this h)) eqn:Hfs;
    destruct (monitor_info_succeeds h) eqn:Hmi; simpl;
    repeat split; intros; try reflexivity; try discriminate;
    repeat match goal with
    | H : _ \/ _ |- _ => destruct H
    end; try reflexivity; try discriminate.
Qed.

Lemma wrap32_add_sub (l r : Z) : int32 r -> wrap32 (l + wrap32 (r - l)) = r.
Proof.
  unfold int32, wrap32. intro Hr.
  replace (l + ((r - l + 2 ^ 31) mod 2 ^ 32 - 2 ^ 31) + 2 ^ 31)
    with (l + (r - l + 2 ^ 31) mod 2 ^ 32) by lia.
  rewrite Zplus_mod_idemp_r.
  replace (l + (r - l + 2 ^ 31)) with (r + 2 ^ 31) by lia.
  rewrite Z.mod_small; lia.
Qed.

Lemma placed_RECT (r : RECT) :
  RECT_in_range r ->
  placed (left r) (top r) (RECT_WIDTH r) (RECT_HEIGHT r) = r.
Proof.
  intros (_ & _ & Hr & Hb). destruct r as [l t r b]; simpl in *.
  unfold placed, RECT_WIDTH, RECT_HEIGHT; simpl.
  now rewrite !wrap32_add_sub.
Qed.

Lemma land_set_flag (a b : Z) : Z.land (Z.lor a b) b = b.
Proof.
  apply Z.bits_inj'. intros n Hn. rewrite Z.land_spec, Z.lor_spec.
  destruct (Z.testbit a n), (Z.testbit b n); reflexivity.
Qed.

Lemma land_cleared_flags (a b : Z) : Z.land (Z.ldiff a b) b = 0.
Proof.
  apply Z.bits_inj'. intros n Hn.
  rewrite Z.land_spec, Z.ldiff_spec, Z.bits_0.
  destruct (Z.testbit a n), (Z.testbit b n); reflexivity.
Qed.

Lemma land_set_other_flag (a b c : Z) :
  Z.land b c = 0 -> Z.land (Z.lor (Z.ldiff a c) b) c = 0.
Proof.
  intro H. apply Z.bits_inj'. intros n Hn.
  assert (Hb : Z.testbit (Z.land b c) n = false)
    by (rewrite H; apply Z.bits_0).
  rewrite Z.land_spec in Hb.
  rewrite Z.land_spec, Z.lor_spec, Z.ldiff_spec, Z.bits_0.
  destruct (Z.testbit a n), (Z.testbit b n), (Z.testbit c n);
    simpl in *; congruence.
Qed.

Lemma upd_same {A} (f : Z -> A) (k : Z) (v : A) : upd f k v k = v.
Proof. unfold upd. now rewrite Z.eqb_refl. Qed.

Lemma upd_other {A} (f : Z -> A) (k : Z) (v : A) (k' : Z) :
  k' <> k -> upd f k v k' = f k'.
Proof. unfold upd. destruct (Z.eqb_spec k' k); congruence. Qed.

Lemma with_fullscreen_same (w : IslandWindow) :
  with_fullscreen (_fullscreen w) w = w.
Proof. now destruct w. Qed.

Lemma after_SetIsFullscreen_window (b : bool) (h : Host) :
  _window (after_SetIsFullscreen b h) = _window (this h).
Proof.
  unfold after_SetIsFullscreen.
  destruct b, (_fullscreen (this h)), (monitor_info_succeeds h); reflexivity.
Qed.

Lemma SetIsFullscreen_last_call (b : bool) (h : Host) (d : Call) :
  last (calls (exec (SetIsFullscreen b) h)) d =
  placement (_window (this h)) (applied_rect (after_SetIsFullscreen b h)).
Proof.
  unfold after_SetIsFullscreen, applied_rect, placement. unfold_fullscreen.
  simpl.
  destruct (_ShouldUpdateStylesOnFullscreen _); destruct b; simpl;
    try (rewrite last_last; reflexivity);
    destruct (_fullscreen (this h)); simpl;
    destruct (monitorInfoAvailable _ _); simpl;
    rewrite last_last; reflexivity.
Qed.

Lemma SetIsFullscreen_windowRect (b : bool) (h : Host) :
  windowRect (desktop (exec (SetIsFullscreen b) h)) (_window (this h)) =
  let r := applied_rect (after_SetIsFullscreen b h) in
  placed (left r) (top r) (RECT_WIDTH r) (RECT_HEIGHT r).
Proof.
  unfold after_SetIsFullscreen, applied_rect. unfold_fullscreen. simpl.
  destruct (_ShouldUpdateStylesOnFullscreen _); destruct b; simpl;
    try (rewrite upd_same; reflexivity);
    destruct (_fullscreen (this h)); simpl;
    destruct (monitorInfoAvailable _ _); simpl;
    rewrite upd_same; reflexivity.
Qed.

Lemma SetIsFullscreen_blocked (b : bool) (h : Host) :
  _ShouldUpdateStylesOnFullscreen (with_fullscreen b (this h)) = false ->
  calls (exec (SetIsFullscreen b) h) =
    calls h ++ [placement (_window (this h))
                  (applied_rect (after_SetIsFullscreen b h))]
  /\ windowLong (desktop (exec (SetIsFullscreen b) h)) = windowLong (desktop h).
Proof.
  intro Hguard.
  unfold after_SetIsFullscreen, applied_rect, placement. unfold_fullscreen.
  simpl. rewrite Hguard.
  destruct b; simpl; try (split; reflexivity);
    destruct (_fullscreen (this h)); simpl;
    destruct (monitorInfoAvailable _ _); simpl; split; reflexivity.
Qed.

Lemma SetIsFullscreen_window (b : bool) (h : Host) :
  _window (this (exec (SetIsFullscreen b) h)) = _window (this h).
Proof. rewrite SetIsFullscreen_this. apply after_SetIsFullscreen_window. Qed.

(** *** LONG values and their bits *)

Lemma wrap32_of_mod (x : Z) : wrap32 (x mod 2 ^ 32) = wrap32 x.
Proof. unfold wrap32. now rewrite Zplus_mod_idemp_l. Qed.

Lemma wrap32_mod (x : Z) : wrap32 x mod 2 ^ 32 = x mod 2 ^ 32.
Proof.
  unfold wrap32. rewrite Zminus_mod_idemp_l. f_equal. lia.
Qed.

Lemma wrap32_int32 (x : Z) : int32 x -> wrap32 x = x.
Proof. unfold int32, wrap32. intro H. rewrite Z.mod_small; lia. Qed.

Lemma int32_wrap32 (x : Z) : int32 (wrap32 x).
Proof.
  unfold int32, wrap32.
  pose proof (Z.mod_pos_bound (x + 2 ^ 31) (2 ^ 32) ltac:(lia)). lia.
Qed.

Lemma testbit_wrap32 (x n : Z) :
  0 <= n < 32 -> Z.testbit (wrap32 x) n = Z.testbit x n.
Proof.
  intro Hn.
  rewrite <- (Z.mod_pow2_bits_low (wrap32 x) 32 n) by lia.
  rewrite wrap32_mod. apply Z.mod_pow2_bits_low. lia.
Qed.

Lemma mask_bits_high (m n : Z) :
  0 <= m < 2 ^ 32 -> 32 <= n -> Z.testbit m n = false.
Proof.
  intros Hm Hn. rewrite <- (Z.mod_small m (2 ^ 32)) by lia.
  apply Z.mod_pow2_bits_high. lia.
Qed.

(** A LONG is known by its 32 bits. *)
Lemma wrap32_by_bits (x s : Z) :
  int32 s ->
  (forall n, 0 <= n < 32 -> Z.testbit x n = Z.testbit s n) ->
  wrap32 x = s.
Proof.
  intros Hs Hbits. rewrite <- (wrap32_int32 s Hs).
  rewrite <- (wrap32_of_mod x), <- (wrap32_of_mod s). f_equal.
  apply Z.bits_inj'. intros n Hn.
  destruct (Z.lt_ge_cases n 32) as [Hlt | Hge].
  - rewrite !Z.mod_pow2_bits_low by lia. apply Hbits. lia.
  - rewrite !Z.mod_pow2_bits_high by lia. reflexivity.
Qed.

(** Under a 32-bit mask only the 32 bits count. *)
Lemma land_by_bits (x y m : Z) :
  0 <= m < 2 ^ 32 ->
  (forall n, 0 <= n < 32 -> Z.testbit x n = Z.testbit y n) ->
  Z.land x m = Z.land y m.
Proof.
  intros Hm Hbits. apply Z.bits_inj'. intros n Hn. rewrite !Z.land_spec.
  destruct (Z.lt_ge_cases n 32) as [Hlt | Hge].
  - rewrite Hbits by lia. reflexivity.
  - rewrite (mask_bits_high m n Hm Hge). now rewrite !andb_false_r.
Qed.

Lemma land_bit (a b c n : Z) :
  Z.land a b = c -> Z.testbit a n && Z.testbit b n = Z.testbit c n.
Proof. intros <-. now rewrite Z.land_spec. Qed.

Ltac bits32 :=
  repeat first
    [ rewrite testbit_wrap32 by lia
    | rewrite Z.lor_spec
    | rewrite Z.ldiff_spec
    | rewrite Z.land_spec ].

Lemma bits_set_after_clear (s clear set n : Z) :
  0 <= n < 32 ->
  Z.testbit (wrap32 (WI_SetFlag (WI_ClearAllFlags (wrap32 s) clear) set)) n =
  Z.testbit (Z.lor (Z.ldiff s clear) set) n.
Proof.
  intro Hn. unfold WI_SetFlag, WI_ClearAllFlags. now bits32.
Qed.

Lemma bits_cleared (s clear n : Z) :
  0 <= n < 32 ->
  Z.testbit (wrap32 (WI_ClearFlag (wrap32 s) clear)) n =
  Z.testbit (Z.ldiff s clear) n.
Proof. intro Hn. unfold WI_ClearFlag. now bits32. Qed.

(** *** The window longs after a call that passes the guard *)

Lemma restyled_at (b : bool) (longs : HWND -> Z -> Z) (hWnd : HWND) :
  restyled b longs hWnd hWnd GWL_STYLE =
    wrap32
      (if b
       then WI_SetFlag
              (WI_ClearAllFlags (wrap32 (longs hWnd GWL_STYLE)) WS_OVERLAPPEDWINDOW)
              WS_POPUP
       else WI_SetAllFlags
              (WI_ClearFlag (wrap32 (longs hWnd GWL_STYLE)) WS_POPUP)
              WS_OVERLAPPEDWINDOW)
  /\ restyled b longs hWnd hWnd GWL_EXSTYLE =
    wrap32
      (if b
       then WI_ClearFlag (wrap32 (longs hWnd GWL_EXSTYLE)) WS_EX_WINDOWEDGE
       else WI_SetFlag (wrap32 (longs hWnd GWL_EXSTYLE)) WS_EX_WINDOWEDGE).
Proof.
  unfold restyled. rewrite !upd_same. split.
  - rewrite (upd_other _ GWL_EXSTYLE _ GWL_STYLE) by discriminate.
    now rewrite ?upd_same.
  - now rewrite ?upd_same.
Qed.

Lemma restyled_elsewhere (b : bool) (longs : HWND -> Z -> Z) (hWnd w : HWND)
    (nIndex : Z) :
  w <> hWnd \/ (nIndex <> GWL_STYLE /\ nIndex <> GWL_EXSTYLE) ->
  restyled b longs hWnd w nIndex = longs w nIndex.
Proof.
  intro H. unfold restyled.
  destruct (Z.eq_dec w hWnd) as [-> | Hw].
  - destruct H as [H | (Hs & He)]; [now elim H|].
    rewrite upd_same, !upd_other by assumption. reflexivity.
  - now rewrite upd_other by assumption.
Qed.

Lemma SetIsFullscreen_passing_windowLong (b : bool) (h : Host) :
  _ShouldUpdateStylesOnFullscreen (with_fullscreen b (this h)) = true ->
  forall (w : HWND) (nIndex : Z),
    windowLong (desktop (exec (SetIsFullscreen b) h)) w nIndex =
    restyled b (windowLong (desktop h)) (_window (this h)) w nIndex.
Proof.
  intros Hguard w nIndex. unfold restyled. unfold_fullscreen. simpl.
  rewrite Hguard.
  destruct b; simpl;
    try destruct (_fullscreen (this h)); simpl;
    try destruct (monitorInfoAvailable _ _); simpl;
    rewrite !upd_same;
    rewrite (upd_other _ GWL_STYLE _ GWL_EXSTYLE) by discriminate;
    unfold upd;
    destruct (Z.eqb_spec w (_window (this h))); reflexivity.
Qed.

Lemma mask_WS_OVERLAPPEDWINDOW : 0 <= WS_OVERLAPPEDWINDOW < 2 ^ 32.
Proof. unfold WS_OVERLAPPEDWINDOW. lia. Qed.

Lemma mask_WS_POPUP : 0 <= WS_POPUP < 2 ^ 32.
Proof. unfold WS_POPUP. lia. Qed.

Lemma mask_WS_EX_WINDOWEDGE : 0 <= WS_EX_WINDOWEDGE < 2 ^ 32.
Proof. unfold WS_EX_WINDOWEDGE. lia. Qed.

(** A [SetIsFullscreen(true)] that passes the guard leaves the window with
    the fullscreen styles. *)
Lemma SetIsFullscreen_true_styles (h : Host) :
  _ShouldUpdateStylesOnFullscreen (with_fullscreen true (this h)) = true ->
  fullscreen_styled (exec (SetIsFullscreen true) h).
Proof.
  intro Hguard. unfold fullscreen_styled.
  rewrite SetIsFullscreen_window.
  rewrite !(SetIsFullscreen_passing_windowLong true h Hguard).
  destruct (restyled_at true (windowLong (desktop h)) (_window (this h)))
    as (-> & ->).
  repeat split.
  - rewrite (land_by_bits _ _ _ mask_WS_OVERLAPPEDWINDOW
               (bits_set_after_clear _ _ _)).
    now apply land_set_other_flag.
  - rewrite (land_by_bits _ _ _ mask_WS_POPUP (bits_set_after_clear _ _ _)).
    apply land_set_flag.
  - rewrite (land_by_bits _ _ _ mask_WS_EX_WINDOWEDGE (bits_cleared _ _)).
    apply land_cleared_flags.
Qed.

(** What such a call stores are LONG values. *)
Lemma SetIsFullscreen_passing_LONG (b : bool) (h : Host) :
  _ShouldUpdateStylesOnFullscreen (with_fullscreen b (this h)) = true ->
  window_longs_are_LONG (exec (SetIsFullscreen b) h).
Proof.
  intro Hguard. unfold window_longs_are_LONG.
  rewrite SetIsFullscreen_window.
  rewrite !(SetIsFullscreen_passing_windowLong b h Hguard).
  destruct (restyled_at b (windowLong (desktop h)) (_window (this h)))
    as (-> & ->).
  split; apply int32_wrap32.
Qed.

(** Once the window has the fullscreen styles, [SetIsFullscreen(true)]
    changes no window long, whether or not the guard lets the update
    through: the bits it would clear are clear, the bit it would set is set. *)
Lemma SetIsFullscreen_true_restyle (h : Host) :
  fullscreen_styled h ->
  window_longs_are_LONG h ->
  forall (hWnd : HWND) (nIndex : Z),
    windowLong (desktop (exec (SetIsFullscreen true) h)) hWnd nIndex =
    windowLong (desktop h) hWnd nIndex.
Proof.
  intros (Hov & Hpop & Hedge) (Hstyle & Hex) hWnd nIndex.
  destruct (_ShouldUpdateStylesOnFullscreen (with_fullscreen true (this h)))
    eqn:Hguard.
  2: now rewrite (proj2 (SetIsFullscreen_blocked true h Hguard)).
  rewrite (SetIsFullscreen_passing_windowLong true h Hguard).
  destruct (restyled_at true (windowLong (desktop h)) (_window (this h)))
    as (Hs & He).
  destruct (Z.eq_dec hWnd (_window (this h))) as [-> | Hw];
    [| apply restyled_elsewhere; now left].
  destruct (Z.eq_dec nIndex GWL_STYLE) as [-> | Hns].
  { rewrite Hs. apply wrap32_by_bits; [exact Hstyle|].
    intros n Hn. unfold WI_SetFlag, WI_ClearAllFlags. bits32.
    pose proof (land_bit _ _ _ n Hov) as B1.
    pose proof (land_bit _ _ _ n Hpop) as B2.
    rewrite Z.bits_0 in B1.
    destruct (Z.testbit (windowLong (desktop h) (_window (this h)) GWL_STYLE) n),
      (Z.testbit WS_OVERLAPPEDWINDOW n), (Z.testbit WS_POPUP n);
      simpl in *; congruence. }
  destruct (Z.eq_dec nIndex GWL_EXSTYLE) as [-> | Hne].
  { rewrite He. apply wrap32_by_bits; [exact Hex|].
    intros n Hn. unfold WI_ClearFlag. bits32.
    pose proof (land_bit _ _ _ n Hedge) as B1. rewrite Z.bits_0 in B1.
    destruct (Z.testbit (windowLong (desktop h) (_window (this h)) GWL_EXSTYLE) n),
      (Z.testbit WS_EX_WINDOWEDGE n); simpl in *; congruence. }
  apply restyled_elsewhere. right. now split.
Qed.

(** [SetIsFullscreen(true)] twice in a row, the guard giving the same answer
    both times: the second call changes no window long. *)
Lemma SetIsFullscreen_true_twice (h0 : Host) :
  let h1 := exec (SetIsFullscreen true) h0 in
  let h2 := exec (SetIsFullscreen true) h1 in
  _ShouldUpdateStylesOnFullscreen (with_fullscreen true (this h1)) =
  _ShouldUpdateStylesOnFullscreen (with_fullscreen true (this h0)) ->
  forall (hWnd : HWND) (nIndex : Z),
    windowLong (desktop h2) hWnd nIndex = windowLong (desktop h1) hWnd nIndex.
Proof.
  intros h1 h2 Hsame hWnd nIndex.
  destruct (_ShouldUpdateStylesOnFullscreen (with_fullscreen true (this h0)))
    eqn:Hguard.
  - apply SetIsFullscreen_true_restyle.
    + now apply SetIsFullscreen_true_styles.
    + now apply SetIsFullscreen_passing_LONG.
  - subst h2. now rewrite (proj2 (SetIsFullscreen_blocked true h1 Hsame)).
Qed.

(** C3: from a windowed state whose window rectangle is R, entering
    fullscreen (by [SetIsFullscreen(true)] or [ToggleFullscreen]) stores R
    as the non-fullscreen rectangle, and leaving it at once (by
    [SetIsFullscreen(false)] or [ToggleFullscreen]) ends with the placement
    call for exactly R, after which the window rectangle is R again. *)
Theorem fullscreen_round_trip (enter leave : FullscreenCall) (h : Host) :
  _fullscreen (this h) = false ->
  enter = Call_SetIsFullscreen true \/ enter = Call_ToggleFullscreen ->
  leave = Call_SetIsFullscreen false \/ leave = Call_ToggleFullscreen ->
  let hWnd := _window (this h) in
  let R := windowRect (desktop h) hWnd in
  RECT_in_range R ->
  let h1 := exec (perform enter) h in
  let h2 := exec (perform leave) h1 in
  _fullscreen (this h1) = true
  /\ _rcNonFullscreenWindowSize (this h1) = R
  /\ _fullscreen (this h2) = false
  /\ last (calls h2) (PostQuitMessage 0) = placement hWnd R
  /\ windowRect (desktop h2) hWnd = R.
Proof.
  intros Hwindowed Henter Hleave hWnd R HR h1 h2.
  assert (E1 : h1 = exec (SetIsFullscreen true) h).
  { subst h1. destruct Henter as [-> | ->]; [reflexivity|].
    simpl. unfold exec. rewrite ToggleFullscreen_eq. now rewrite Hwindowed. }
  assert (Hthis1 : this h1 = after_SetIsFullscreen true h)
    by (rewrite E1; apply SetIsFullscreen_this).
  assert (Hfs1 : _fullscreen (this h1) = true).
  { rewrite Hthis1. unfold after_SetIsFullscreen. rewrite Hwindowed.
    destruct (monitor_info_succeeds h); reflexivity. }
  assert (Hrc1 : _rcNonFullscreenWindowSize (this h1) = R).
  { rewrite Hthis1. unfold after_SetIsFullscreen. rewrite Hwindowed.
    destruct (monitor_info_succeeds h); reflexivity. }
  assert (Hwnd1 : _window (this h1) = hWnd)
    by (rewrite E1; apply SetIsFullscreen_window).
  assert (E2 : h2 = exec (SetIsFullscreen false) h1).
  { subst h2. destruct Hleave as [-> | ->]; [reflexivity|].
    simpl. unfold exec. rewrite ToggleFullscreen_eq. now rewrite Hfs1. }
  assert (Happlied : applied_rect (after_SetIsFullscreen false h1) = R).
  { unfold after_SetIsFullscreen, applied_rect. simpl. exact Hrc1. }
  repeat split; auto.
  - rewrite E2, SetIsFullscreen_this. reflexivity.
  - rewrite E2, SetIsFullscreen_last_call, Happlied, Hwnd1. reflexivity.
  - rewrite E2. rewrite <- Hwnd1 at 1. rewrite SetIsFullscreen_windowRect.
    rewrite Happlied. simpl. now apply placed_RECT.
Qed.

Lemma wrap32_idem (x : Z) : wrap32 (wrap32 x) = wrap32 x.
Proof. apply wrap32_int32, int32_wrap32. Qed.

Lemma SetIsFullscreen_passing_calls (b : bool) (h : Host) :
  _ShouldUpdateStylesOnFullscreen (with_fullscreen b (this h)) = true ->
  let hWnd := _window (this h) in
  let longs := restyled b (windowLong (desktop h)) hWnd hWnd in
  calls (exec (SetIsFullscreen b) h) =
    calls h ++ [SetWindowLongW hWnd GWL_STYLE (longs GWL_STYLE);
                SetWindowLongW hWnd GWL_EXSTYLE (longs GWL_EXSTYLE);
                placement hWnd (applied_rect (after_SetIsFullscreen b h))].
Proof.
  intros Hguard hWnd longs. subst longs.
  destruct (restyled_at b (windowLong (desktop h)) hWnd) as (-> & ->).
  subst hWnd.
  unfold after_SetIsFullscreen, applied_rect, placement. unfold_fullscreen.
  simpl. rewrite Hguard.
  destruct b; simpl;
    try destruct (_fullscreen (this h)); simpl;
    try destruct (monitorInfoAvailable _ _); simpl;
    rewrite !upd_same;
    rewrite (upd_other _ GWL_STYLE _ GWL_EXSTYLE) by discriminate;
    rewrite <- !app_assoc; reflexivity.
Qed.

(** C4, amended: in a state already in fullscreen, [SetIsFullscreen(true)]
    always ends with the placement call for the fullscreen rectangle. Its
    styles are decided by the guard alone, not by the state it is entered
    in: when the guard blocks, the placement is the only call and the
    window longs are untouched; when the guard passes, the call writes
    GWL_STYLE (WS_OVERLAPPEDWINDOW cleared, WS_POPUP set) and GWL_EXSTYLE
    (WS_EX_WINDOWEDGE cleared) again before the placement. Such a rewrite
    changes no value when the window already has the fullscreen styles. *)
Theorem SetIsFullscreen_true_again (h : Host) :
  _fullscreen (this h) = true ->
  let hWnd := _window (this h) in
  let h' := exec (SetIsFullscreen true) h in
  let geometry := placement hWnd (_rcFullscreenWindowSize (this h')) in
  let style :=
    WI_SetFlag
      (WI_ClearAllFlags (wrap32 (windowLong (desktop h) hWnd GWL_STYLE))
         WS_OVERLAPPEDWINDOW)
      WS_POPUP in
  let exStyle :=
    WI_ClearFlag (wrap32 (windowLong (desktop h) hWnd GWL_EXSTYLE))
      WS_EX_WINDOWEDGE in
  (_ShouldUpdateStylesOnFullscreen (this h) = false ->
   calls h' = calls h ++ [geometry]
   /\ count is_SetWindowLongW [geometry] = 0%nat
   /\ windowLong (desktop h') = windowLong (desktop h))
  /\ (_ShouldUpdateStylesOnFullscreen (this h) = true ->
      calls h' =
        calls h ++ [SetWindowLongW hWnd GWL_STYLE style;
                    SetWindowLongW hWnd GWL_EXSTYLE exStyle;
                    geometry]
      /\ windowLong (desktop h') hWnd GWL_STYLE = style
      /\ windowLong (desktop h') hWnd GWL_EXSTYLE = exStyle)
  /\ (fullscreen_styled h -> window_longs_are_LONG h ->
      forall (w : HWND) (nIndex : Z),
        windowLong (desktop h') w nIndex = windowLong (desktop h) w nIndex)
  /\ last (calls h') (PostQuitMessage 0) = geometry
  /\ _fullscreen (this h') = true.
Proof.
  intros Hfs hWnd h' geometry style exStyle.
  assert (Hthis : this h' = after_SetIsFullscreen true h)
    by apply SetIsFullscreen_this.
  assert (Hfs' : _fullscreen (this h') = true).
  { rewrite Hthis. unfold after_SetIsFullscreen. rewrite Hfs.
    destruct (monitor_info_succeeds h); reflexivity. }
  assert (Happlied : applied_rect (after_SetIsFullscreen true h) =
                     _rcFullscreenWindowSize (this h')).
  { rewrite <- Hthis. unfold applied_rect. now rewrite Hfs'. }
  assert (Hsame : with_fullscreen true (this h) = this h)
    by (rewrite <- Hfs; apply with_fullscreen_same).
  destruct (restyled_at true (windowLong (desktop h)) hWnd) as (Hs & He).
  assert (Hstyle : restyled true (windowLong (desktop h)) hWnd hWnd GWL_STYLE
                   = style).
  { rewrite Hs. subst style. unfold WI_SetFlag at 1. apply wrap32_idem. }
  assert (HexStyle : restyled true (windowLong (desktop h)) hWnd hWnd GWL_EXSTYLE
                     = exStyle).
  { rewrite He. subst exStyle. unfold WI_ClearFlag at 1. apply wrap32_idem. }
  split; [| split; [| split; [| split]]].
  - intro Hguard. rewrite <- Hsame in Hguard.
    destruct (SetIsFullscreen_blocked true h Hguard) as (Hcalls & Hlongs).
    repeat split; [| exact Hlongs].
    subst h' geometry hWnd. now rewrite <- Happlied.
  - intro Hguard. rewrite <- Hsame in Hguard.
    repeat split.
    + subst h' geometry. rewrite <- Happlied, <- Hstyle, <- HexStyle.
      now apply SetIsFullscreen_passing_calls.
    + subst h'. rewrite (SetIsFullscreen_passing_windowLong true h Hguard).
      exact Hstyle.
    + subst h'. rewrite (SetIsFullscreen_passing_windowLong true h Hguard).
      exact HexStyle.
  - intros Hstyled Hlong w nIndex. now apply SetIsFullscreen_true_restyle.
  - subst h' geometry hWnd. rewrite <- Happlied.
    apply SetIsFullscreen_last_call.
  - exact Hfs'.
Qed.

(** ** Further properties of the methods *)

Lemma exec_bind {A B} (c : M A) (k : M B) (h : Host) :
  exec (c ;; k) h = exec k (exec c h).
Proof. unfold exec, bind. now destruct (c h). Qed.

Ltac pick_member :=
  solve [ repeat (try (left; reflexivity); right) ].


(** X2: a message the switch has no case for goes to the base handler with
    the host untouched: no event, no call, no member written. *)
Theorem MessageHandler_other_message (message wparam lparam : Z) (h : Host) :
  ~ In message handled_messages ->
  MessageHandler message wparam lparam h =
    base_MessageHandler message wparam lparam h.
Proof.
  intro Hnot. unfold MessageHandler, is_nonclient_button.
  repeat match goal with
  | |- context [message =? ?c] =>
      destruct (Z.eqb_spec message c) as [E | E];
      [ exfalso; apply Hnot; rewrite E;
        unfold handled_messages, nonclient_button_messages; pick_member
      | clear E ]
  end.
  reflexivity.
Qed.

(** X3: the first [_GetUiaProvider] that gets a provider stores it, and
    logs nothing; from then on the call answers the stored provider and
    changes nothing, whatever [Create] would do. *)
Theorem GetUiaProvider_created_once (h : Host) (provider : Z) :
  _pUiaProvider (this h) = nullptr ->
  WindowUiaProvider_Create (this h) = inr provider ->
  provider <> nullptr ->
  let h1 := exec _GetUiaProvider h in
  _GetUiaProvider h =
    (provider, mkHost (with_pUiaProvider provider (this h)) (desktop h) (calls h))
  /\ _GetUiaProvider h1 = (provider, h1).
Proof.
  intros Hnull Hcreate Hprov h1.
  assert (Hrun : _GetUiaProvider h =
            (provider,
             mkHost (with_pUiaProvider provider (this h)) (desktop h) (calls h))).
  { unfold _GetUiaProvider. unfold_monad. rewrite Hnull. simpl.
    now rewrite Hcreate. }
  split; [exact Hrun|].
  subst h1. unfold exec. rewrite Hrun. simpl.
  unfold _GetUiaProvider. unfold_monad. simpl.
  destruct provider; [now elim Hprov | reflexivity | reflexivity].
Qed.

Lemma GetUiaProvider_throws (h : Host) (hr : HRESULT) :
  _pUiaProvider (this h) = nullptr ->
  WindowUiaProvider_Create (this h) = inl hr ->
  exec _GetUiaProvider h = mkHost (this h) (desktop h) (calls h ++ [LOG_HR hr]).
Proof.
  intros Hnull Hthrow. unfold _GetUiaProvider. unfold_monad.
  rewrite Hnull. simpl. rewrite Hthrow. simpl.
  replace (with_pUiaProvider nullptr (this h)) with (this h); [reflexivity|].
  rewrite <- Hnull. symmetry. apply with_pUiaProvider_same.
Qed.

(** X4: a failed creation is not remembered: as long as [Create] throws,
    every [_GetUiaProvider] tries again and logs again, so [n] calls leave
    [n] log entries and the object as it was. *)
Theorem GetUiaProvider_failure_retried (n : nat) (h : Host) (hr : HRESULT) :
  _pUiaProvider (this h) = nullptr ->
  WindowUiaProvider_Create (this h) = inl hr ->
  exec (times n _GetUiaProvider) h =
    mkHost (this h) (desktop h) (calls h ++ repeat (LOG_HR hr) n).
Proof.
  revert h. induction n as [|n IH]; intros h Hnull Hthrow.
  - simpl. rewrite app_nil_r. now destruct h.
  - simpl times. rewrite exec_bind, (GetUiaProvider_throws h hr Hnull Hthrow).
    rewrite IH by assumption. simpl. now rewrite <- app_assoc.
Qed.

Lemma after_SetIsFullscreen_fullscreen (b : bool) (h : Host) :
  _fullscreen (after_SetIsFullscreen b h) = b.
Proof.
  unfold after_SetIsFullscreen.
  destruct b, (_fullscreen (this h)), (monitor_info_succeeds h); reflexivity.
Qed.

Lemma after_SetIsFullscreen_frame (b : bool) (h : Host) :
  same_outside_fullscreen (this h) (after_SetIsFullscreen b h).
Proof.
  unfold after_SetIsFullscreen, same_outside_fullscreen.
  destruct b, (_fullscreen (this h)), (monitor_info_succeeds h);
    repeat split.
Qed.

(** X5: over any sequence of [SetIsFullscreen] / [ToggleFullscreen] calls
    the fullscreen flag follows the two-state machine: a set gives its
    argument, a toggle the opposite state, whatever the style guard and
    the monitor query do. *)
Theorem fullscreen_flag_machine (cs : list FullscreenCall) (h : Host) :
  _fullscreen (this (exec (perform_all cs) h)) =
  fold_left next_fullscreen cs (_fullscreen (this h)).
Proof.
  revert h. induction cs as [|c rest IH]; intro h; simpl.
  - reflexivity.
  - rewrite exec_bind, IH, perform_this, after_SetIsFullscreen_fullscreen.
    now destruct c.
Qed.

Lemma SetIsFullscreen_calls (b : bool) (h : Host) :
  exists added,
    calls (exec (SetIsFullscreen b) h) = calls h ++ added
    /\ forallb (restyles_or_places (_window (this h))) added = true.
Proof.
  unfold_fullscreen. simpl.
  destruct (_ShouldUpdateStylesOnFullscreen _); destruct b; simpl;
    try destruct (_fullscreen (this h)); simpl;
    try destruct (monitorInfoAvailable _ _); simpl;
    rewrite <- ?app_assoc; simpl;
    (eexists; split; [reflexivity | simpl; now rewrite ?Z.eqb_refl]).
Qed.

Lemma same_outside_fullscreen_trans (w1 w2 w3 : IslandWindow) :
  same_outside_fullscreen w1 w2 -> same_outside_fullscreen w2 w3 ->
  same_outside_fullscreen w1 w3.
Proof.
  unfold same_outside_fullscreen.
  intros (A1 & A2 & A3 & A4 & A5 & A6 & A7 & A8)
         (B1 & B2 & B3 & B4 & B5 & B6 & B7 & B8).
  repeat split; congruence.
Qed.

(** X6: a sequence of fullscreen calls writes no member but the flag and
    the two cached rectangles, and every call it makes is a
    [SetWindowLongW] or a [SetWindowPos] on the object's own window: it
    raises no event and never posts the quit message. *)
Theorem fullscreen_calls_frame (cs : list FullscreenCall) (h : Host) :
  let h' := exec (perform_all cs) h in
  same_outside_fullscreen (this h) (this h')
  /\ exists added,
       calls h' = calls h ++ added
       /\ forallb (restyles_or_places (_window (this h))) added = true.
Proof.
  revert h. induction cs as [|c rest IH]; intro h; simpl.
  - split; [unfold same_outside_fullscreen; repeat split|].
    exists []. now rewrite app_nil_r.
  - rewrite exec_bind.
    set (h1 := exec (perform c) h).
    assert (Hthis : same_outside_fullscreen (this h) (this h1)).
    { subst h1. rewrite perform_this. apply after_SetIsFullscreen_frame. }
    assert (Hcalls : exists added,
               calls h1 = calls h ++ added
               /\ forallb (restyles_or_places (_window (this h))) added = true).
    { subst h1. destruct c; simpl.
      - apply SetIsFullscreen_calls.
      - unfold exec. rewrite ToggleFullscreen_eq. apply SetIsFullscreen_calls. }
    destruct (IH h1) as (Hthis' & added' & Hc' & Hf').
    destruct Hcalls as (added & Hc & Hf).
    split; [eapply same_outside_fullscreen_trans; eassumption|].
    exists (added ++ added'). split.
    + now rewrite Hc', Hc, app_assoc.
    + rewrite forallb_app, Hf. simpl.
      destruct Hthis as (Hw & _). now rewrite <- Hw.
Qed.

Ltac unfold_WI :=
  unfold WI_SetFlag, WI_SetAllFlags, WI_ClearFlag, WI_ClearAllFlags.

(** X7: when the style guard lets it through, [SetIsFullscreen] leaves the
    window with the styles of its target state (fullscreen: WS_POPUP and no
    bit of WS_OVERLAPPEDWINDOW, window edge off; windowed: the opposite),
    stored as LONG values; of the 32 bits of each style it keeps every bit
    outside those masks, and it writes no other window long. *)
Theorem SetIsFullscreen_restyles (b : bool) (h : Host) :
  _ShouldUpdateStylesOnFullscreen (with_fullscreen b (this h)) = true ->
  let hWnd := _window (this h) in
  let h' := exec (SetIsFullscreen b) h in
  (if b then fullscreen_styled h' else windowed_styled h')
  /\ window_longs_are_LONG h'
  /\ (forall n : Z,
        0 <= n < 32 ->
        Z.testbit (Z.lor WS_OVERLAPPEDWINDOW WS_POPUP) n = false ->
        Z.testbit (windowLong (desktop h') hWnd GWL_STYLE) n =
        Z.testbit (windowLong (desktop h) hWnd GWL_STYLE) n)
  /\ (forall n : Z,
        0 <= n < 32 ->
        Z.testbit WS_EX_WINDOWEDGE n = false ->
        Z.testbit (windowLong (desktop h') hWnd GWL_EXSTYLE) n =
        Z.testbit (windowLong (desktop h) hWnd GWL_EXSTYLE) n)
  /\ (forall (w : HWND) (nIndex : Z),
        w <> hWnd \/ (nIndex <> GWL_STYLE /\ nIndex <> GWL_EXSTYLE) ->
        windowLong (desktop h') w nIndex = windowLong (desktop h) w nIndex).
Proof.
  intros Hguard hWnd h'.
  pose proof (SetIsFullscreen_passing_windowLong b h Hguard) as Hlong.
  destruct (restyled_at b (windowLong (desktop h)) hWnd) as (Hstyle & Hex).
  fold h' hWnd in Hlong.
  assert (Hwnd : _window (this h') = hWnd) by apply SetIsFullscreen_window.
  split; [| split; [| split; [| split]]].
  - unfold fullscreen_styled, windowed_styled. rewrite Hwnd, !Hlong.
    rewrite Hstyle, Hex.
    destruct b; repeat split.
    + rewrite (land_by_bits _ (Z.lor (Z.ldiff
                 (windowLong (desktop h) hWnd GWL_STYLE) WS_OVERLAPPEDWINDOW)
                 WS_POPUP) _ mask_WS_OVERLAPPEDWINDOW)
        by (intros; unfold_WI; now bits32).
      now apply land_set_other_flag.
    + rewrite (land_by_bits _ (Z.lor (Z.ldiff
                 (windowLong (desktop h) hWnd GWL_STYLE) WS_OVERLAPPEDWINDOW)
                 WS_POPUP) _ mask_WS_POPUP)
        by (intros; unfold_WI; now bits32).
      apply land_set_flag.
    + rewrite (land_by_bits _ (Z.ldiff
                 (windowLong (desktop h) hWnd GWL_EXSTYLE) WS_EX_WINDOWEDGE)
                 _ mask_WS_EX_WINDOWEDGE)
        by (intros; unfold_WI; now bits32).
      apply land_cleared_flags.
    + rewrite (land_by_bits _ (Z.lor (Z.ldiff
                 (windowLong (desktop h) hWnd GWL_STYLE) WS_POPUP)
                 WS_OVERLAPPEDWINDOW) _ mask_WS_OVERLAPPEDWINDOW)
        by (intros; unfold_WI; now bits32).
      apply land_set_flag.
    + rewrite (land_by_bits _ (Z.lor (Z.ldiff
                 (windowLong (desktop h) hWnd GWL_STYLE) WS_POPUP)
                 WS_OVERLAPPEDWINDOW) _ mask_WS_POPUP)
        by (intros; unfold_WI; now bits32).
      now apply land_set_other_flag.
    + rewrite (land_by_bits _ (Z.lor
                 (windowLong (desktop h) hWnd GWL_EXSTYLE) WS_EX_WINDOWEDGE)
                 _ mask_WS_EX_WINDOWEDGE)
        by (intros; unfold_WI; now bits32).
      apply land_set_flag.
  - subst h'. now apply SetIsFullscreen_passing_LONG.
  - intros n Hn Hmask. rewrite Hlong, Hstyle.
    rewrite Z.lor_spec in Hmask. apply orb_false_elim in Hmask.
    destruct Hmask as (Hov & Hpop).
    destruct b; unfold_WI; bits32; rewrite Hov, Hpop;
      now rewrite andb_true_r, orb_false_r.
  - intros n Hn Hmask. rewrite Hlong, Hex.
    destruct b; unfold_WI; bits32; rewrite Hmask.
    + now rewrite andb_true_r.
    + now rewrite orb_false_r.
  - intros w nIndex Hother. rewrite Hlong. now apply restyled_elsewhere.
Qed.

(** X8: fullscreen and back, through the guard both times, on a window that
    had the windowed styles, its two style longs being LONG values:
    afterwards every window long has its first value again. *)
Theorem fullscreen_styles_round_trip (h : Host) :
  windowed_styled h ->
  window_longs_are_LONG h ->
  let h1 := exec (SetIsFullscreen true) h in
  let h2 := exec (SetIsFullscreen false) h1 in
  _ShouldUpdateStylesOnFullscreen (with_fullscreen true (this h)) = true ->
  _ShouldUpdateStylesOnFullscreen (with_fullscreen false (this h1)) = true ->
  forall (w : HWND) (nIndex : Z),
    windowLong (desktop h2) w nIndex = windowLong (desktop h) w nIndex.
Proof.
  intros (Hov & Hpop & Hedge) (Hstyle & Hex) h1 h2 Hg1 Hg2 w nIndex.
  pose proof (SetIsFullscreen_passing_windowLong true h Hg1) as H1.
  pose proof (SetIsFullscreen_passing_windowLong false h1 Hg2) as H2.
  fold h1 in H1. fold h2 in H2.
  assert (Hwnd : _window (this h1) = _window (this h))
    by apply SetIsFullscreen_window.
  rewrite Hwnd in H2. set (hWnd := _window (this h)) in *.
  destruct (restyled_at false (windowLong (desktop h1)) hWnd) as (S2 & E2).
  destruct (restyled_at true (windowLong (desktop h)) hWnd) as (S1 & E1).
  destruct (Z.eq_dec w hWnd) as [-> | Hw].
  2: { rewrite H2, restyled_elsewhere by now left.
       rewrite H1. apply restyled_elsewhere. now left. }
  destruct (Z.eq_dec nIndex GWL_STYLE) as [-> | Hs].
  { rewrite H2, S2, H1, S1. apply wrap32_by_bits; [exact Hstyle|].
    intros n Hn. unfold_WI. bits32.
    pose proof (land_bit _ _ _ n Hov) as B1.
    pose proof (land_bit _ _ _ n Hpop) as B2. rewrite Z.bits_0 in B2.
    destruct (Z.testbit (windowLong (desktop h) hWnd GWL_STYLE) n),
      (Z.testbit WS_OVERLAPPEDWINDOW n), (Z.testbit WS_POPUP n);
      simpl in *; congruence. }
  destruct (Z.eq_dec nIndex GWL_EXSTYLE) as [-> | He].
  { rewrite H2, E2, H1, E1. apply wrap32_by_bits; [exact Hex|].
    intros n Hn. unfold_WI. bits32.
    pose proof (land_bit _ _ _ n Hedge) as B1.
    destruct (Z.testbit (windowLong (desktop h) hWnd GWL_EXSTYLE) n),
      (Z.testbit WS_EX_WINDOWEDGE n); simpl in *; congruence. }
  rewrite H2, restyled_elsewhere by (right; now split).
  rewrite H1. apply restyled_elsewhere. right; now split.
Qed.

(** X9: when [GetMonitorInfo] answers, [SetIsFullscreen(true)] ends by
    placing the window on the rectangle of the monitor nearest to it,
    whether or not the window was in fullscreen before. *)
Theorem SetIsFullscreen_true_covers_monitor (h : Host) :
  monitor_info_succeeds h = true ->
  RECT_in_range (monitor_rect_under_window h) ->
  let hWnd := _window (this h) in
  let h' := exec (SetIsFullscreen true) h in
  last (calls h') (PostQuitMessage 0) =
    placement hWnd (monitor_rect_under_window h)
  /\ windowRect (desktop h') hWnd = monitor_rect_under_window h.
Proof.
  intros Hmi Hrange hWnd h'.
  assert (Happlied : applied_rect (after_SetIsFullscreen true h) =
                     monitor_rect_under_window h).
  { unfold after_SetIsFullscreen, applied_rect. rewrite Hmi.
    destruct (_fullscreen (this h)); reflexivity. }
  split.
  - subst h' hWnd. now rewrite SetIsFullscreen_last_call, Happlied.
  - subst h' hWnd. rewrite SetIsFullscreen_windowRect, Happlied. simpl.
    now apply placed_RECT.
Qed.

(** X10: [SetIsFullscreen(false)] on a window that is not in fullscreen
    writes no member, yet still ends with the placement call: the window is
    put at the cached non-fullscreen rectangle, whatever rectangle it had. *)
Theorem SetIsFullscreen_false_while_windowed (h : Host) :
  _fullscreen (this h) = false ->
  let hWnd := _window (this h) in
  let R := _rcNonFullscreenWindowSize (this h) in
  let h' := exec (SetIsFullscreen false) h in
  this h' = this h
  /\ last (calls h') (PostQuitMessage 0) = placement hWnd R
  /\ windowRect (desktop h') hWnd =
     placed (left R) (top R) (RECT_WIDTH R) (RECT_HEIGHT R).
Proof.
  intros Hfs hWnd R h'.
  assert (Hthis : after_SetIsFullscreen false h = this h).
  { unfold after_SetIsFullscreen. rewrite <- Hfs. apply with_fullscreen_same. }
  assert (Happlied : applied_rect (after_SetIsFullscreen false h) = R).
  { rewrite Hthis. unfold applied_rect. now rewrite Hfs. }
  repeat split.
  - subst h'. now rewrite SetIsFullscreen_this.
  - subst h' hWnd. now rewrite SetIsFullscreen_last_call, Happlied.
  - subst h' hWnd. now rewrite SetIsFullscreen_windowRect, Happlied.
Qed.

(** X11: after an [Initialize] whose attachment succeeds and yields an
    interop window, [OnResize] is no longer idle: it places that window at
    the origin with the given size and gives the root grid the logical
    size read after the placement. *)
Theorem OnResize_after_Initialize (width height : Z) (h : Host) :
  0 <= islandAttach (desktop h) (_window (this h)) ->
  islandHandle (desktop h) <> nullptr ->
  let island := islandHandle (desktop h) in
  let h1 := exec Initialize h in
  let resize :=
    os_SetWindowPos island 0 0 0 (wrap32 width) (wrap32 height) SWP_SHOWWINDOW in
  let size := GetLogicalSize (exec resize h1) in
  let h2 := exec (OnResize width height) h1 in
  calls h2 =
    calls h ++ [AttachToWindow (_window (this h));
                SetWindowPos island 0 0 0 (wrap32 width) (wrap32 height)
                  SWP_SHOWWINDOW]
  /\ _interopWindowHandle (this h2) = island
  /\ _rootGrid (this h2) = Some (mkGrid (Some (Width size)) (Some (Height size))).
Proof.
  intros Hok Hisland island h1 resize size h2.
  subst h2 size resize h1. unfold OnResize, OnSize, Initialize, os_SetWindowPos.
  unfold_monad. simpl.
  destruct (Z.ltb_spec (islandAttach (desktop h) (_window (this h))) 0);
    [lia|]. simpl. unfold nonnull.
  destruct (Z.eqb_spec (islandHandle (desktop h)) nullptr) as [E | E];
    [now elim Hisland|]. simpl.
  repeat split. now rewrite <- app_assoc.
Qed.

(** X12: when the attachment fails, [Initialize] ends with that failure
    code as its exception, after the attach call alone; the interop handle
    and the root grid are as before, so on a fresh object [OnResize] is
    still idle afterwards. *)
Theorem Initialize_failure (width height : Z) (h : Host) :
  islandAttach (desktop h) (_window (this h)) < 0 ->
  let h1 := exec Initialize h in
  fst (Initialize h) = inl (islandAttach (desktop h) (_window (this h)))
  /\ calls h1 = calls h ++ [AttachToWindow (_window (this h))]
  /\ _interopWindowHandle (this h1) = _interopWindowHandle (this h)
  /\ _rootGrid (this h1) = _rootGrid (this h)
  /\ (_interopWindowHandle (this h) = nullptr ->
      OnResize width height h1 = (tt, h1)).
Proof.
  intros Hfail h1. subst h1. unfold Initialize. unfold_monad. simpl.
  destruct (Z.ltb_spec (islandAttach (desktop h) (_window (this h))) 0);
    [|lia]. simpl.
  repeat split.
  intro Hnull. unfold OnResize. unfold_monad. simpl. now rewrite Hnull.
Qed.

(** X13: [OnAppInitialized] resizes to the physical size; with an interop
    window it does what [OnResize] does for that size, but it does not
    check the handle: before [Initialize] it still issues the placement,
    for the null window. *)
Theorem OnAppInitialized_resizes (h : Host) :
  let size := GetPhysicalSize h in
  (_interopWindowHandle (this h) <> nullptr ->
   OnAppInitialized h = OnResize (size_cx size) (size_cy size) h)
  /\ (_interopWindowHandle (this h) = nullptr -> _rootGrid (this h) = None ->
      this (exec OnAppInitialized h) = this h
      /\ calls (exec OnAppInitialized h) =
         calls h ++ [SetWindowPos nullptr 0 0 0 (wrap32 (size_cx size))
                       (wrap32 (size_cy size)) SWP_SHOWWINDOW]).
Proof.
  intro size. split.
  - intro Hset. unfold OnAppInitialized, OnResize. unfold_monad.
    unfold nonnull.
    destruct (Z.eqb_spec (_interopWindowHandle (this h)) nullptr) as [E | E];
      [now elim Hset | reflexivity].
  - intros Hnull Hgrid. unfold OnAppInitialized, OnSize, os_SetWindowPos.
    unfold_monad. simpl. rewrite Hnull, Hgrid. simpl. split; reflexivity.
Qed.

Lemma wrap32_sub_add (x c : Z) : int32 c -> wrap32 (wrap32 (x + c) - x) = c.
Proof.
  unfold int32, wrap32. intro Hc.
  replace ((x + c + 2 ^ 31) mod 2 ^ 32 - 2 ^ 31 - x + 2 ^ 31)
    with ((x + c + 2 ^ 31) mod 2 ^ 32 - x) by lia.
  rewrite Zminus_mod_idemp_l.
  replace (x + c + 2 ^ 31 - x) with (c + 2 ^ 31) by lia.
  rewrite Z.mod_small; lia.
Qed.

(** X14: the rectangle WM_CREATE hands to the create callback starts at the
    (x, y) of the creation parameters and, read back with [RECT_WIDTH] and
    [RECT_HEIGHT], has exactly their cx and cy (for cx, cy in the int
    range). *)
Theorem WM_CREATE_bounds_size
    (wparam lparam : Z) (h : Host) (pfn : CreateCallbackFn) :
  _pfnCreateCallback (this h) = Some pfn ->
  let pcs := createStructAt (desktop h) lparam in
  int32 (cs_cx pcs) -> int32 (cs_cy pcs) ->
  exists (rc : RECT) (rest : list Call),
    calls (exec (MessageHandler WM_CREATE wparam lparam) h) =
      calls h ++ CreateCallback (_window (this h)) rc DefaultMode :: rest
    /\ left rc = cs_x pcs /\ top rc = cs_y pcs
    /\ RECT_WIDTH rc = cs_cx pcs /\ RECT_HEIGHT rc = cs_cy pcs.
Proof.
  intros Hcb pcs Hcx Hcy.
  unfold MessageHandler, _HandleCreateWindow. simpl. unfold_monad.
  rewrite Hcb. simpl. fold pcs.
  eexists. eexists. rewrite <- !app_assoc. simpl.
  split; [reflexivity|]. unfold RECT_WIDTH, RECT_HEIGHT. simpl.
  repeat split; now apply wrap32_sub_add.
Qed.

Lemma count_app (p : Call -> bool) (l1 l2 : list Call) :
  count p (l1 ++ l2) = (count p l1 + count p l2)%nat.
Proof. unfold count. now rewrite filter_app, length_app. Qed.

(** X15: the create callback is neither consumed nor cleared by WM_CREATE,
    and a registration replaces the one before it: after registering
    [other] and then [pfn], two WM_CREATE messages call [pfn] once each,
    each followed by its own ShowWindow and UpdateWindow. *)
Theorem create_callback_stays_registered
    (other : option CreateCallbackFn) (pfn : CreateCallbackFn)
    (wparam lparam wparam' lparam' : Z) (h : Host) :
  let hWnd := _window (this h) in
  let rc := proposed_bounds (createStructAt (desktop h) lparam) in
  let rc' := proposed_bounds (createStructAt (desktop h) lparam') in
  let h0 := exec (SetCreateCallback other ;; SetCreateCallback (Some pfn)) h in
  let h1 := exec (MessageHandler WM_CREATE wparam lparam) h0 in
  let h2 := exec (MessageHandler WM_CREATE wparam' lparam') h1 in
  calls h2 =
    calls h ++
    [CreateCallback hWnd rc DefaultMode;
     ShowWindow hWnd (nCmdShow_of (pfn hWnd rc DefaultMode));
     UpdateWindow hWnd;
     CreateCallback hWnd rc' DefaultMode;
     ShowWindow hWnd (nCmdShow_of (pfn hWnd rc' DefaultMode));
     UpdateWindow hWnd]
  /\ count is_CreateCallback (calls h2) =
     (count is_CreateCallback (calls h) + 2)%nat
  /\ this h2 = this h0.
Proof.
  intros hWnd rc rc' h0 h1 h2.
  assert (Hcalls : calls h2 =
    calls h ++
    [CreateCallback hWnd rc DefaultMode;
     ShowWindow hWnd (nCmdShow_of (pfn hWnd rc DefaultMode));
     UpdateWindow hWnd;
     CreateCallback hWnd rc' DefaultMode;
     ShowWindow hWnd (nCmdShow_of (pfn hWnd rc' DefaultMode));
     UpdateWindow hWnd]).
  { subst h2 h1 h0. unfold MessageHandler, _HandleCreateWindow, SetCreateCallback.
    simpl. unfold_monad. simpl. fold hWnd.
    unfold proposed_bounds in rc, rc'. fold rc rc'.
    rewrite <- !app_assoc. simpl.
    destruct (pfn hWnd rc DefaultMode), (pfn hWnd rc' DefaultMode);
      reflexivity. }
  repeat split.
  - exact Hcalls.
  - rewrite Hcalls, count_app.
    destruct (pfn hWnd rc DefaultMode), (pfn hWnd rc' DefaultMode);
      reflexivity.
Qed.

Lemma DWORD_ldiff_after_lor (a b : Z) :
  Z.ldiff (DWORD_of_LONG (wrap32 (wrap32 (Z.lor a b)))) b =
  Z.ldiff (DWORD_of_LONG (wrap32 a)) b.
Proof.
  unfold DWORD_of_LONG. rewrite !wrap32_mod.
  apply Z.bits_inj'. intros n Hn. rewrite !Z.ldiff_spec.
  destruct (Z.lt_ge_cases n 32) as [Hlt | Hge].
  - rewrite !Z.mod_pow2_bits_low by lia. rewrite Z.lor_spec.
    destruct (Z.testbit a n), (Z.testbit b n); reflexivity.
  - rewrite !Z.mod_pow2_bits_high by lia. reflexivity.
Qed.

(** X16: [GetFrameBorderMargins] is a query: it changes nothing; and it
    drops WS_DLGFRAME before asking for the frame, so giving the window
    that style bit does not change its answer. *)
Theorem GetFrameBorderMargins_ignores_WS_DLGFRAME (currentDpi : Z) (h : Host) :
  let hWnd := _window (this h) in
  let style := windowLong (desktop h) hWnd GWL_STYLE in
  let framed :=
    exec (os_SetWindowLongW hWnd GWL_STYLE (Z.lor style WS_DLGFRAME)) h in
  exec (GetFrameBorderMargins currentDpi) h = h
  /\ fst (GetFrameBorderMargins currentDpi framed) =
     fst (GetFrameBorderMargins currentDpi h).
Proof.
  intros hWnd style framed. split.
  - unfold GetFrameBorderMargins, os_GetWindowLongW. unfold_monad. simpl.
    now destruct h.
  - subst framed. unfold GetFrameBorderMargins, os_GetWindowLongW,
      os_SetWindowLongW. unfold_monad. simpl. fold hWnd.
    rewrite !upd_same.
    rewrite (upd_other _ GWL_STYLE _ GWL_EXSTYLE) by discriminate.
    fold style. now rewrite DWORD_ldiff_after_lor.
Qed.

End Host.

Arguments sample_host {float}.
Arguments answer_zero {float}.

(** ** The theorems at concrete inputs *)

Lemma MessageHandler_WM_SETFOCUS_no_island_run :
  let h := mkHost unit
             (subscribe_DragRegionClicked unit 7 (sample_window unit))
             (sample_desktop true) [] in
  _interopWindowHandle unit (this unit h) = nullptr
  /\ MessageHandler unit answer_zero WM_SETFOCUS 0 0 h =
     (0, mkHost unit (this unit h) (desktop unit h)
           [Invoke DragRegionClicked 7]).
Proof.
  intro h. split; [reflexivity|].
  rewrite (MessageHandler_WM_SETFOCUS_no_island unit answer_zero 0 0 h);
    reflexivity.
Defined.

Lemma OnResize_before_Initialize_run :
  OnResize unit (fun _ => mkSize unit tt tt) 800 600 (sample_host true) =
  (tt, sample_host true).
Proof.
  apply (OnResize_before_Initialize unit (fun _ => mkSize unit tt tt) 800 600
           (sample_host true)).
  reflexivity.
Defined.

Lemma MessageHandler_WM_CREATE_callback_run :
  let h := exec unit (SetCreateCallback unit (Some (fun _ _ _ => MaximizedMode)))
             (sample_host true) in
  calls unit (exec unit (MessageHandler unit answer_zero WM_CREATE 0 0) h) =
  [CreateCallback 0x1111 (mkRECT 10 20 810 620) DefaultMode;
   ShowWindow 0x1111 SW_MAXIMIZE;
   UpdateWindow 0x1111].
Proof.
  intro h.
  destruct (MessageHandler_WM_CREATE_callback unit answer_zero 0 0 h
              (fun _ _ _ => MaximizedMode) eq_refl) as (Hrun & _).
  unfold exec at 1. rewrite Hrun. reflexivity.
Defined.

Lemma MessageHandler_WM_CREATE_no_callback_run :
  MessageHandler unit answer_zero WM_CREATE 0 0 (sample_host true) =
  (0, mkHost unit (sample_window unit) (sample_desktop true)
        [ShowWindow 0x1111 SW_SHOW; UpdateWindow 0x1111]).
Proof.
  apply (MessageHandler_WM_CREATE_no_callback unit answer_zero 0 0
           (sample_host true)).
  reflexivity.
Defined.

Lemma GetUiaProvider_failure_and_reuse_run :
  let E_FAIL := -2147467259 in
  let Create := fun _ : IslandWindow unit => inl E_FAIL : HRESULT + Z in
  let stored := mkHost unit (with_pUiaProvider unit 0x3333 (sample_window unit))
                  (sample_desktop true) [] in
  _GetUiaProvider unit Create (sample_host true) =
    (nullptr, mkHost unit (sample_window unit) (sample_desktop true)
                [LOG_HR E_FAIL])
  /\ _GetUiaProvider unit Create stored = (0x3333, stored).
Proof.
  intros E_FAIL Create stored. split.
  - apply (proj1 (GetUiaProvider_failure_and_reuse unit Create (sample_host true))
             E_FAIL); reflexivity.
  - apply (proj2 (GetUiaProvider_failure_and_reuse unit Create stored)).
    discriminate.
Defined.

(** C2 as the claim has it fails when [GetMonitorInfo] returns FALSE: the
    call enters fullscreen, the monitor under the window is
    (0, 0)-(1920, 1080), and the cached fullscreen rectangle is still the
    one the object had before the call. *)
Lemma SetIsFullscreen_GetMonitorInfo_fails :
  let h := sample_host false in
  let h' := exec unit (SetIsFullscreen unit (fun _ => true) true) h in
  _fullscreen unit (this unit h') = true
  /\ monitor_rect_under_window unit h = mkRECT 0 0 1920 1080
  /\ _rcFullscreenWindowSize unit (this unit h') = mkRECT 0 0 0 0
  /\ _rcFullscreenWindowSize unit (this unit h') <>
     monitor_rect_under_window unit h.
Proof. repeat split. discriminate. Qed.

Lemma fullscreen_rectangles_backup_run :
  let guard := fun _ : IslandWindow unit => true in
  let windowed := exec unit (perform_all unit guard
                    [Call_ToggleFullscreen; Call_SetIsFullscreen false])
                    (sample_host true) in
  let entered := exec unit (perform unit guard Call_ToggleFullscreen) windowed in
  let entered' := exec unit (perform_all unit guard
                    [Call_ToggleFullscreen; Call_SetIsFullscreen false;
                     Call_ToggleFullscreen])
                    (sample_host true) in
  let again := exec unit (perform unit guard (Call_SetIsFullscreen true)) entered' in
  (_rcNonFullscreenWindowSize unit (this unit entered) =
     windowRect (desktop unit windowed) (_window unit (this unit windowed))
   /\ _rcFullscreenWindowSize unit (this unit entered) =
      monitor_rect_under_window unit windowed)
  /\ _rcNonFullscreenWindowSize unit (this unit again) =
     _rcNonFullscreenWindowSize unit (this unit entered').
Proof.
  intros guard windowed entered entered' again.
  pose proof (fullscreen_rectangles_backup unit guard
                [Call_ToggleFullscreen; Call_SetIsFullscreen false]
                Call_ToggleFullscreen (sample_host true)) as (_ & Hnon & Hfull & _).
  pose proof (fullscreen_rectangles_backup unit guard
                [Call_ToggleFullscreen; Call_SetIsFullscreen false;
                 Call_ToggleFullscreen]
                (Call_SetIsFullscreen true) (sample_host true)) as (Hkeep & _).
  split; [split|].
  - apply Hnon; vm_compute; reflexivity.
  - apply Hfull; vm_compute; reflexivity.
  - apply Hkeep; left; vm_compute; reflexivity.
Defined.

Lemma fullscreen_round_trip_run :
  let guard := fun _ : IslandWindow unit => true in
  let h1 := exec unit (perform unit guard Call_ToggleFullscreen) (sample_host true) in
  let h2 := exec unit (perform unit guard Call_ToggleFullscreen) h1 in
  windowRect (desktop unit h1) 0x1111 = mkRECT 0 0 1920 1080
  /\ windowRect (desktop unit h2) 0x1111 = mkRECT 100 100 900 700.
Proof.
  intros guard h1 h2. split; [reflexivity|].
  assert (Hrange : RECT_in_range (mkRECT 100 100 900 700))
    by (unfold RECT_in_range, int32; simpl; lia).
  apply (fullscreen_round_trip unit guard Call_ToggleFullscreen
           Call_ToggleFullscreen (sample_host true) eq_refl
           (or_intror eq_refl) (or_intror eq_refl) Hrange).
Defined.

(** C4 as the claim has it fails for a guard that passes: the repeated
    call issues its two [SetWindowLongW] again; and for a guard that gives
    way only once the fullscreen rectangle is cached, the repeated call is
    the one that turns the overlapped style into the popup style. *)
Lemma SetIsFullscreen_true_again_restyles :
  let passing := fun _ : IslandWindow unit => true in
  let late := fun w : IslandWindow unit =>
                negb (right (_rcFullscreenWindowSize unit w) =? 0) in
  let h1 := exec unit (SetIsFullscreen unit passing true) (sample_host true) in
  let h2 := exec unit (SetIsFullscreen unit passing true) h1 in
  let k1 := exec unit (SetIsFullscreen unit late true) (sample_host true) in
  let k2 := exec unit (SetIsFullscreen unit late true) k1 in
  _fullscreen unit (this unit h1) = true
  /\ calls unit h2 =
     calls unit h1 ++
     [SetWindowLongW 0x1111 GWL_STYLE (-2147483648);
      SetWindowLongW 0x1111 GWL_EXSTYLE 0;
      SetWindowPos 0x1111 HWND_TOP 0 0 1920 1080 SWP_FRAMECHANGED]
  /\ _fullscreen unit (this unit k1) = true
  /\ windowLong (desktop unit k1) 0x1111 GWL_STYLE = WS_OVERLAPPEDWINDOW
  /\ windowLong (desktop unit k2) 0x1111 GWL_STYLE = -2147483648.
Proof. vm_compute. repeat split. Qed.

Lemma SetIsFullscreen_true_again_run :
  let blocked := fun _ : IslandWindow unit => false in
  let passing := fun _ : IslandWindow unit => true in
  let h1 := exec unit (SetIsFullscreen unit blocked true) (sample_host true) in
  let h2 := exec unit (SetIsFullscreen unit passing true) (sample_host true) in
  let h2' := exec unit (SetIsFullscreen unit passing true) h2 in
  calls unit (exec unit (SetIsFullscreen unit blocked true) h1) =
    calls unit h1 ++
    [SetWindowPos 0x1111 HWND_TOP 0 0 1920 1080 SWP_FRAMECHANGED]
  /\ calls unit h2' =
     calls unit h2 ++
     [SetWindowLongW 0x1111 GWL_STYLE (-2147483648);
      SetWindowLongW 0x1111 GWL_EXSTYLE 0;
      SetWindowPos 0x1111 HWND_TOP 0 0 1920 1080 SWP_FRAMECHANGED]
  /\ windowLong (desktop unit h2') 0x1111 GWL_STYLE =
     windowLong (desktop unit h2) 0x1111 GWL_STYLE.
Proof.
  intros blocked passing h1 h2 h2'.
  destruct (SetIsFullscreen_true_again unit blocked h1 eq_refl)
    as (Hblocked & _).
  destruct (SetIsFullscreen_true_again unit passing h2 eq_refl)
    as (_ & Hpassing & Hstyled & _).
  assert (Hfs : fullscreen_styled unit h2) by (repeat split).
  assert (Hlong : window_longs_are_LONG unit h2)
    by (unfold window_longs_are_LONG, int32; vm_compute;
        repeat split; intro; discriminate).
  split; [| split].
  - pose proof (proj1 (Hblocked eq_refl)) as H.
    vm_compute in H. vm_compute. exact H.
  - pose proof (proj1 (Hpassing eq_refl)) as H.
    vm_compute in H. vm_compute. exact H.
  - apply (Hstyled Hfs Hlong).
Defined.

(** ** The further properties at concrete inputs *)


Lemma MessageHandler_other_message_run :
  let WM_SIZE := 0x0005 in
  MessageHandler unit answer_zero WM_SIZE 0 0 (sample_host true) =
  (0, sample_host true).
Proof.
  intro WM_SIZE.
  assert (Hnot : ~ In WM_SIZE handled_messages).
  { unfold handled_messages, nonclient_button_messages. simpl.
    intuition discriminate. }
  rewrite (MessageHandler_other_message unit answer_zero WM_SIZE 0 0
             (sample_host true) Hnot).
  reflexivity.
Defined.

Lemma GetUiaProvider_created_once_run :
  let Create := fun _ : IslandWindow unit => inr 0x3333 : HRESULT + Z in
  let h1 := exec unit (_GetUiaProvider unit Create) (sample_host true) in
  _pUiaProvider unit (this unit h1) = 0x3333
  /\ _GetUiaProvider unit Create h1 = (0x3333, h1).
Proof.
  intros Create h1. split; [reflexivity|].
  apply (GetUiaProvider_created_once unit Create (sample_host true) 0x3333);
    [reflexivity | reflexivity | discriminate].
Defined.

Lemma GetUiaProvider_failure_retried_run :
  let E_FAIL := -2147467259 in
  let Create := fun _ : IslandWindow unit => inl E_FAIL : HRESULT + Z in
  calls unit (exec unit (times unit 3 (_GetUiaProvider unit Create))
                (sample_host true)) =
  [LOG_HR E_FAIL; LOG_HR E_FAIL; LOG_HR E_FAIL].
Proof.
  intros E_FAIL Create.
  rewrite (GetUiaProvider_failure_retried unit Create 3 (sample_host true)
             E_FAIL eq_refl eq_refl).
  reflexivity.
Defined.

Lemma SetIsFullscreen_restyles_run :
  let guard := fun _ : IslandWindow unit => true in
  let entered := exec unit (SetIsFullscreen unit guard true) (sample_host true) in
  let left_again := exec unit (SetIsFullscreen unit guard false) entered in
  fullscreen_styled unit entered /\ windowed_styled unit left_again.
Proof.
  intros guard entered left_again. split.
  - apply (SetIsFullscreen_restyles unit guard true (sample_host true) eq_refl).
  - apply (SetIsFullscreen_restyles unit guard false entered eq_refl).
Defined.

Lemma fullscreen_styles_round_trip_run :
  let guard := fun _ : IslandWindow unit => true in
  let h1 := exec unit (SetIsFullscreen unit guard true) (sample_host true) in
  let h2 := exec unit (SetIsFullscreen unit guard false) h1 in
  windowLong (desktop unit h1) 0x1111 GWL_STYLE = -2147483648
  /\ windowLong (desktop unit h2) 0x1111 GWL_STYLE = WS_OVERLAPPEDWINDOW
  /\ windowLong (desktop unit h2) 0x1111 GWL_EXSTYLE = WS_EX_WINDOWEDGE.
Proof.
  intros guard h1 h2.
  assert (Hstyled : windowed_styled unit (sample_host true))
    by (repeat split).
  assert (Hlong : window_longs_are_LONG unit (sample_host true))
    by (unfold window_longs_are_LONG, int32; vm_compute;
        repeat split; intro; discriminate).
  pose proof (fullscreen_styles_round_trip unit guard (sample_host true)
                Hstyled Hlong eq_refl eq_refl) as Hback.
  split; [reflexivity|]. split.
  - apply (Hback 0x1111 GWL_STYLE).
  - apply (Hback 0x1111 GWL_EXSTYLE).
Defined.

Lemma SetIsFullscreen_true_covers_monitor_run :
  let guard := fun _ : IslandWindow unit => true in
  windowRect
    (desktop unit (exec unit (SetIsFullscreen unit guard true) (sample_host true)))
    0x1111 = mkRECT 0 0 1920 1080.
Proof.
  intro guard.
  assert (Hrange : RECT_in_range (mkRECT 0 0 1920 1080))
    by (unfold RECT_in_range, int32; simpl; lia).
  apply (SetIsFullscreen_true_covers_monitor unit guard (sample_host true)
           eq_refl Hrange).
Defined.

Lemma SetIsFullscreen_false_while_windowed_run :
  let guard := fun _ : IslandWindow unit => true in
  windowRect (desktop unit (sample_host true)) 0x1111 = mkRECT 100 100 900 700
  /\ windowRect
       (desktop unit (exec unit (SetIsFullscreen unit guard false) (sample_host true)))
       0x1111 = mkRECT 0 0 0 0.
Proof.
  intro guard. split; [reflexivity|].
  destruct (SetIsFullscreen_false_while_windowed unit guard (sample_host true)
              eq_refl) as (_ & _ & Hrect).
  exact Hrect.
Defined.

Lemma OnResize_after_Initialize_run :
  let logical := fun _ : Host unit => mkSize unit tt tt in
  let h1 := exec unit (Initialize unit) (sample_host true) in
  calls unit (exec unit (OnResize unit logical 800 600) h1) =
  [AttachToWindow 0x1111; SetWindowPos 0x2222 0 0 0 800 600 SWP_SHOWWINDOW].
Proof.
  intros logical h1.
  assert (Hok : 0 <= 0) by lia.
  assert (Hisland : 0x2222 <> nullptr) by discriminate.
  apply (OnResize_after_Initialize unit logical 800 600 (sample_host true)
           Hok Hisland).
Defined.

Lemma Initialize_failure_run :
  let logical := fun _ : Host unit => mkSize unit tt tt in
  let h := mkHost unit (sample_window unit) sample_desktop_no_island [] in
  let h1 := exec unit (Initialize unit) h in
  fst (Initialize unit h) = inl (-2147467259)
  /\ OnResize unit logical 800 600 h1 = (tt, h1).
Proof.
  intros logical h h1.
  assert (Hfail : -2147467259 < 0) by lia.
  destruct (Initialize_failure unit logical 800 600 h Hfail)
    as (Hthrown & _ & _ & _ & Hidle).
  split; [exact Hthrown | apply Hidle; reflexivity].
Defined.

Lemma OnAppInitialized_resizes_run :
  let logical := fun _ : Host unit => mkSize unit tt tt in
  let physical := fun _ : Host unit => mkSIZE 800 600 in
  let h1 := exec unit (Initialize unit) (sample_host true) in
  OnAppInitialized unit logical physical h1 = OnResize unit logical 800 600 h1
  /\ calls unit (exec unit (OnAppInitialized unit logical physical)
                   (sample_host true)) =
     [SetWindowPos nullptr 0 0 0 800 600 SWP_SHOWWINDOW].
Proof.
  intros logical physical h1. split.
  - apply (proj1 (OnAppInitialized_resizes unit logical physical h1)).
    discriminate.
  - apply (proj2 (OnAppInitialized_resizes unit logical physical
                    (sample_host true)) eq_refl eq_refl).
Defined.

Lemma WM_CREATE_bounds_size_run :
  let h := exec unit (SetCreateCallback unit (Some (fun _ _ _ => DefaultMode)))
             (sample_host true) in
  exists (rc : RECT) (rest : list Call),
    calls unit (exec unit (MessageHandler unit answer_zero WM_CREATE 0 0) h) =
      CreateCallback 0x1111 rc DefaultMode :: rest
    /\ left rc = 10 /\ top rc = 20
    /\ RECT_WIDTH rc = 800 /\ RECT_HEIGHT rc = 600.
Proof.
  intro h.
  assert (Hcx : int32 800) by (unfold int32; lia).
  assert (Hcy : int32 600) by (unfold int32; lia).
  apply (WM_CREATE_bounds_size unit answer_zero 0 0 h
           (fun _ _ _ => DefaultMode) eq_refl Hcx Hcy).
Defined.

